(** * spawn.py: launcher of the multi-GPU training run

    A shallow embedding of [src/spawn.py].  The script is orchestration
    code: it reads a JSON configuration, calls into the training framework
    and into the sibling modules of the repository ([preprocess], [Trainer],
    [model], [loss]) and decides, from the configuration and from the two
    arguments of [main_worker], which of those calls happen and with which
    arguments.

    The embedding keeps exactly that: every call that leaves the file is an
    [event] carrying its arguments, a run is the list of events it emitted
    together with the exception that ended it (if any), and the values the
    outside world hands back (the parsed configuration, the number of CUDA
    devices, the metrics returned by [train] and [val], ...) are fields of a
    [World] record. *)

From Stdlib Require Import ZArith List String Ascii Bool Lia.
From Stdlib Require Import Floats DecimalString.
Import ListNotations.

(* [0.9] and [1e-5] stand for the nearest binary64, as in Python. *)
Set Warnings "-inexact-float,-register-all".

Local Open Scope string_scope.
Local Open Scope list_scope.
Local Open Scope Z_scope.

(** ** Python values *)

(** The values [json.load] can produce, which are also the values of the
    metric dictionaries.  A [dict] keeps its insertion order, so it is an
    association list with distinct keys.  A [str] is the sequence of its
    code points, one character of the [string] each: the strings covered
    are those over the code points below 256. *)
Inductive pyval : Type :=
| VNone
| VBool (b : bool)
| VInt (z : Z)
| VFloat (f : float)
| VStr (s : string)
| VList (l : list pyval)
| VDict (d : list (string * pyval)).

Inductive exn : Type :=
| KeyError (key : string)
| TypeError
| NameError (name : string)
| AssertionError
| ValueError
| RuntimeError
| ProcessRaisedException
| LoadError.

(** ** Runs: a writer of events over an exception monad *)

Module Run.

Section WithEvent.
Context {E : Type}.

Definition run (A : Type) : Type := (list E * (exn + A))%type.

Definition ret {A} (a : A) : run A := ([], inr a).
Definition raise {A} (e : exn) : run A := ([], inl e).
Definition emit (ev : E) : run unit := ([ev], inr tt).
Definition lift {A} (r : exn + A) : run A := ([], r).

Definition bind {A B} (m : run A) (k : A -> run B) : run B :=
  match snd m with
  | inl e => (fst m, inl e)
  | inr a => (fst m ++ fst (k a), snd (k a))
  end.

Definition trace {A} (m : run A) : list E := fst m.
Definition outcome {A} (m : run A) : exn + A := snd m.

End WithEvent.

Arguments run : clear implicits.

End Run.

Import Run.

Declare Scope run_scope.
Delimit Scope run_scope with run.
Notation "x <- m ;; k" := (bind m (fun x => k))
  (at level 100, m at next level, right associativity) : run_scope.
Notation "m ;;; k" := (bind m (fun _ => k))
  (at level 100, right associativity) : run_scope.

(** ** Comparing a Python number with an integer

    Python compares a [float] with an [int] exactly.  A finite binary64 is
    [(-1)^s * m * 2^e], so the comparison is carried out in [Z]. *)

Definition float_compare_Z (f : float) (z : Z) : option comparison :=
  match Prim2SF f with
  | S754_nan => None
  | S754_zero _ => Some (0 ?= z)
  | S754_infinity true => Some Lt
  | S754_infinity false => Some Gt
  | S754_finite s m e =>
      let v := if s then Z.neg m else Z.pos m in
      if 0 <=? e then Some (v * 2 ^ e ?= z)
      else Some (v ?= z * 2 ^ (- e))
  end.

(** The number a value stands for in a comparison; [bool] is a subclass of
    [int]. *)
Definition compare_with_int (v : pyval) (z : Z) : exn + option comparison :=
  match v with
  | VInt x => inr (Some (x ?= z))
  | VBool b => inr (Some ((if b then 1 else 0) ?= z))
  | VFloat f => inr (float_compare_Z f z)
  | _ => inl TypeError
  end.

(** [v < z] and [v > z]: a [TypeError] when [v] is not a number. *)
Definition py_lt_int (v : pyval) (z : Z) : exn + bool :=
  match compare_with_int v z with
  | inl e => inl e
  | inr (Some Lt) => inr true
  | inr _ => inr false
  end.

Definition py_gt_int (v : pyval) (z : Z) : exn + bool :=
  match compare_with_int v z with
  | inl e => inl e
  | inr (Some Gt) => inr true
  | inr _ => inr false
  end.

(** [v == z] never raises. *)
Definition py_eq_int (v : pyval) (z : Z) : bool :=
  match compare_with_int v z with
  | inr (Some Eq) => true
  | _ => false
  end.

(** [v == s] for a string literal [s]: only a [str] equals a [str]. *)
Definition py_eq_str (v : pyval) (s : string) : bool :=
  match v with
  | VStr t => String.eqb t s
  | _ => false
  end.

(** ** Dictionaries, subscripts and the other builtins the script uses *)

Fixpoint dict_get (k : string) (d : list (string * pyval)) : option pyval :=
  match d with
  | [] => None
  | (k', v) :: d' => if String.eqb k k' then Some v else dict_get k d'
  end.

(** [d[k] = v]: the key keeps its place when it is there already. *)
Fixpoint dict_set (k : string) (v : pyval) (d : list (string * pyval))
  : list (string * pyval) :=
  match d with
  | [] => [(k, v)]
  | (k', v') :: d' =>
      if String.eqb k k' then (k', v) :: d' else (k', v') :: dict_set k v d'
  end.

(** [d.update(other)] *)
Definition dict_update (d other : list (string * pyval)) : list (string * pyval) :=
  fold_left (fun acc kv => dict_set (fst kv) (snd kv) acc) other d.

(** [v[k]] for a string key [k]: only a [dict] takes one. *)
Definition subscript (v : pyval) (k : string) : exn + pyval :=
  match v with
  | VDict d =>
      match dict_get k d with
      | Some x => inr x
      | None => inl (KeyError k)
      end
  | _ => inl TypeError
  end.

(** [d[k]] on a dictionary proper (the metrics). *)
Definition dict_subscript (d : list (string * pyval)) (k : string) : exn + pyval :=
  subscript (VDict d) k.

(** [len(v)]: the number of code points of a [str], of items of a [list],
    of keys of a [dict]; nothing else that [json.load] gives has a
    length. *)
Definition py_len (v : pyval) : exn + Z :=
  match v with
  | VStr s => inr (Z.of_nat (String.length s))
  | VList l => inr (Z.of_nat (List.length l))
  | VDict d => inr (Z.of_nat (List.length d))
  | _ => inl TypeError
  end.

(** [prefix + v] and [v + suffix] with a string literal: [str] concatenates
    with [str] only. *)
Definition str_add_left (prefix : string) (v : pyval) : exn + string :=
  match v with
  | VStr s => inr (prefix ++ s)%string
  | _ => inl TypeError
  end.

Definition str_add_right (v : pyval) (suffix : string) : exn + string :=
  match v with
  | VStr s => inr (s ++ suffix)%string
  | _ => inl TypeError
  end.

(** [range(v)]: [v] has to be an integer ([bool] included). *)
Definition range_upto (n : Z) : list Z := map Z.of_nat (seq 0 (Z.to_nat n)).

Definition py_range (v : pyval) : exn + list Z :=
  match v with
  | VInt n => inr (range_upto n)
  | VBool b => inr (range_upto (if b then 1 else 0))
  | _ => inl TypeError
  end.

Definition decimal (n : nat) : string := NilEmpty.string_of_uint (Nat.to_uint n).

(** *** [str.strip], [str.lower] and [str.replace('cuda:', '')]

    A [str] is the sequence of its code points, and a character of a
    [string] is one code point: the strings of the model are Python's
    strings over the code points below 256, and [String.length] is [len].
    The three functions are Python's on those strings. *)

(** [c.isspace()]: the separators [\t \n \v \f \r], [\x1c] to [\x1f], the
    space, NEL ([\x85]) and the no-break space ([\xa0]). *)
Definition is_space (c : ascii) : bool :=
  let n := nat_of_ascii c in
  ((9 <=? n) && (n <=? 13) || (28 <=? n) && (n <=? 32)
   || (n =? 133) || (n =? 160))%nat.

Fixpoint lstrip (s : string) : string :=
  match s with
  | String c s' => if is_space c then lstrip s' else s
  | EmptyString => EmptyString
  end.

Definition string_rev (s : string) : string :=
  string_of_list_ascii (rev (list_ascii_of_string s)).

Definition strip (s : string) : string :=
  string_rev (lstrip (string_rev (lstrip s))).

(** [c.lower()]: the capital letters below 256 are [A] to [Z] and [\xc0]
    to [\xde] without the multiplication sign [\xd7]; each has its small
    letter 32 places further. *)
Definition lower_char (c : ascii) : ascii :=
  let n := nat_of_ascii c in
  if ((65 <=? n) && (n <=? 90)
      || (192 <=? n) && (n <=? 222) && negb (n =? 215))%nat
  then ascii_of_nat (n + 32) else c.

Fixpoint lower (s : string) : string :=
  match s with
  | String c s' => String (lower_char c) (lower s')
  | EmptyString => EmptyString
  end.

(** Whether the string has a NUL character: [os.environ] takes no such
    value. *)
Fixpoint has_nul (s : string) : bool :=
  match s with
  | String c s' => (nat_of_ascii c =? 0)%nat || has_nul s'
  | EmptyString => false
  end.

(** [s.replace(pat, '')]: the occurrences of [pat] are removed from left to
    right; [skip] counts the characters of an occurrence still to drop. *)
Fixpoint remove_all_from (pat : string) (skip : nat) (s : string) : string :=
  match s with
  | EmptyString => EmptyString
  | String c s' =>
      match skip with
      | S k => remove_all_from pat k s'
      | O =>
          if String.prefix pat s
          then remove_all_from pat (String.length pat - 1) s'
          else String c (remove_all_from pat 0 s')
      end
  end.

Definition remove_all (pat s : string) : string := remove_all_from pat 0 s.

(** ** The calls that leave the file *)

Inductive transform : Type :=
| Resize (height width : pyval)
| ToTensor.

(** [torchvision.datasets.ImageFolder(root=..., transform=Compose(...))] *)
Record dataset : Type := ImageFolder {
  ds_root : string;
  ds_transform : list transform
}.

Inductive sampler : Type :=
| DistributedSampler (ds : dataset) (shuffle : bool).

(** [DataLoader(dataset, batch_size=, num_workers=, shuffle=, drop_last=,
    sampler=)]; [None] is the default of [sampler]. *)
Record loader : Type := DataLoader {
  ld_dataset : dataset;
  ld_batch_size : pyval;
  ld_num_workers : pyval;
  ld_shuffle : bool;
  ld_drop_last : bool;
  ld_sampler : option sampler
}.

(** The value of the variable [model]: what [Model(...)] built, and what
    [.to(gpu)] and [DDP(...)] made of it. *)
Inductive model : Type :=
| Model (cfg : pyval) (num_classes : nat)
| ModelTo (m : model) (device : pyval)
| DDP (m : model) (device_ids : list pyval) (output_device : pyval)
      (find_unused_parameters : bool).

(** [torch.optim.SGD(model.parameters(), lr, momentum=0.9, weight_decay=1e-5)] *)
Record optimizer : Type := SGD {
  opt_model : model;
  opt_lr : pyval;
  opt_momentum : float;
  opt_weight_decay : float
}.

(** [CrossEntropyLoss().cuda(gpu)] *)
Inductive criterion : Type :=
| CrossEntropyLossCuda (gpu : pyval).

Inductive log_msg : Type :=
| LogStr (s : string)
| LogModel (m : model).

Inductive event : Type :=
(* main *)
| EBackup (args : pyval)
| EWandbInit (project : pyval) (notes : string)
| EWandbConfigUpdate (args : pyval)
| ETorchDevice (s : string)
| ESpawn (nprocs : nat) (args : list pyval)
(* main_worker *)
| EGetLogger (name : string)
| ESetLevelInfo
| EInitProcessGroup (backend init_method : string) (world_size rank : pyval)
| EImageFolder (ds : dataset)
| EDistributedSampler (ds : dataset) (shuffle : bool)
| EDataLoader (ld : loader)
| EModel (cfg : pyval) (num_classes : nat)
| ELoggerInfo (msg : log_msg)
| EWandbWatch (m : model)
| EModelTo (m : model) (device : pyval)
| EDDP (m : model) (device_ids : list pyval) (output_device : pyval)
       (find_unused_parameters : bool)
| ESGD (opt : optimizer)
| ECriterionCuda (gpu : pyval)
| ETrain (ld : loader) (m : model) (gpu : pyval) (opt : optimizer)
         (crit : criterion) (epoch : Z) (epochs : pyval)
| EVal (ld : loader) (m : model) (crit : criterion) (gpu : pyval)
       (epoch : Z) (epochs : pyval)
| ESaveCheckpoint (m : model) (epoch : Z) (val_acc : pyval) (is_best : bool)
                  (checkpoint : string)
| EWandbLog (entries : list (string * pyval))
| EWandbFinish.

Definition prun (A : Type) : Type := run event A.

(** A call that may raise: the call is made, and [raises] says what it
    raises, if it does. *)
Definition call (raises : option exn) (ev : event) : prun unit :=
  bind (emit ev)
    (fun _ => match raises with
              | Some x => raise x
              | None => ret tt
              end).

(** ** What the outside world answers *)

(** One worker process.  [global_args] is the module-level name [args] as
    [main_worker] sees it ([None]: unbound).  [train], [val] and the dataset
    classes live outside the file, so their results are taken as given.
    The constructors of the framework that are handed values of the
    configuration ([ImageFolder] a path, [DataLoader] a batch size and a
    number of workers, [SGD] a learning rate) and the move of the criterion
    to the device check what they get: [call_raises] says what such a call
    raises, if it raises.  The other calls ([init_process_group],
    [Model], the logger, the tracker, [train], [val], [save_checkpoint])
    are taken to return. *)
Record WorkerWorld : Type := {
  global_args : option pyval;
  nccl_available : bool;
  num_train_classes : nat;
  train_result : Z -> list (string * pyval);
  val_result : Z -> list (string * pyval);
  worker_str : pyval -> string;
  call_raises : event -> option exn
}.

(** The launching process.  [config_file] is what [open] and [json.load]
    give for [args.config]; the CUDA queries depend on the value of
    [CUDA_VISIBLE_DEVICES] at the time of the call; [torch_device_raises]
    says what [torch.device(name)] raises for a name it does not take. *)
Record World : Type := {
  config_file : exn + pyval;
  cuda_visible_devices : option string;
  cuda_is_available : option string -> bool;
  cuda_device_count : option string -> nat;
  torch_device_raises : string -> option exn;
  builtin_str : pyval -> string;
  worker_world : nat -> WorkerWorld
}.

(** [str(v)]: the identity on a [str]; the text of the other values is the
    interpreter's. *)
Definition py_str (text : pyval -> string) (v : pyval) : string :=
  match v with
  | VStr s => s
  | _ => text v
  end.

(** ** [main_worker] *)

Local Open Scope run_scope.

(** [args[k]] inside [main_worker]: [args] is looked up among the module's
    globals each time. *)
Definition arg (ww : WorkerWorld) (k : string) : prun pyval :=
  match global_args ww with
  | None => raise (NameError "args")
  | Some a => lift (subscript a k)
  end.

(** [(ngpus_per_node == 1) or (ngpus_per_node > 1 and gpu == 0)] *)
Definition is_rank0 (gpu ngpus_per_node : pyval) : exn + bool :=
  if py_eq_int ngpus_per_node 1 then inr true
  else match py_gt_int ngpus_per_node 1 with
       | inl e => inl e
       | inr true => inr (py_eq_int gpu 0)
       | inr false => inr false
       end.

(** The local variables the epoch loop reads and writes.  [None] is an
    unbound name. *)
Record locals : Type := {
  best_val_loss : Z;
  best_val_acc : Z;
  is_best_loss : option bool;
  is_best_acc : option bool;
  metrics_summary : option (list (string * pyval))
}.

(** The objects built before the loop. *)
Record setup : Type := {
  train_set : dataset;
  train_loader : loader;
  val_loader : loader;
  the_model : model;
  the_optimizer : optimizer;
  the_criterion : criterion
}.

(** [metrics_summary] once [val]'s dictionary has been merged into
    [train]'s. *)
Definition epoch_metrics (ww : WorkerWorld) (epoch : Z) : list (string * pyval) :=
  dict_update (train_result ww epoch) (val_result ww epoch).

(** Lines 117-136: one iteration of the loop. *)
Definition epoch_body (ww : WorkerWorld) (gpu ngpus_per_node : pyval)
  (su : setup) (st : locals) (epoch : Z) : prun locals :=
  epochs <- arg ww "epochs" ;;
  emit (ETrain (train_loader su) (the_model su) gpu (the_optimizer su)
               (the_criterion su) epoch epochs) ;;;
  epochs' <- arg ww "epochs" ;;
  emit (EVal (val_loader su) (the_model su) (the_criterion su) gpu epoch epochs') ;;;
  let ms := epoch_metrics ww epoch in
  val_loss <- lift (dict_subscript ms "val_loss") ;;
  best_loss <- lift (py_lt_int val_loss (best_val_loss st)) ;;
  val_acc <- lift (dict_subscript ms "val_acc") ;;
  best_acc <- lift (py_gt_int val_acc (best_val_acc st)) ;;
  rank0 <- lift (is_rank0 gpu ngpus_per_node) ;;
  (if rank0 : bool then
     val_acc' <- lift (dict_subscript ms "val_acc") ;;
     save_dir <- arg ww "saveDir" ;;
     emit (ESaveCheckpoint (the_model su) (epoch + 1) val_acc' best_loss
             (py_str (worker_str ww) save_dir ++ "_"
              ++ decimal (num_train_classes ww))%string) ;;;
     acc <- lift (dict_subscript ms "acc") ;;
     loss <- lift (dict_subscript ms "loss") ;;
     val_acc'' <- lift (dict_subscript ms "val_acc") ;;
     val_loss' <- lift (dict_subscript ms "val_loss") ;;
     emit (EWandbLog [("epoch", VInt epoch); ("acc", acc); ("loss", loss);
                      ("val_acc", val_acc''); ("val_loss", val_loss')])
   else ret tt) ;;;
  ret {| best_val_loss := best_val_loss st;
         best_val_acc := best_val_acc st;
         is_best_loss := Some best_loss;
         is_best_acc := Some best_acc;
         metrics_summary := Some ms |}.

(** [for epoch in ...]: the iterations in the order of the list, the first
    exception ends the loop. *)
Fixpoint epoch_loop (ww : WorkerWorld) (gpu ngpus_per_node : pyval)
  (su : setup) (st : locals) (epochs : list Z) : prun locals :=
  match epochs with
  | [] => ret st
  | epoch :: rest =>
      st' <- epoch_body ww gpu ngpus_per_node su st epoch ;;
      epoch_loop ww gpu ngpus_per_node su st' rest
  end.

(** Lines 66-72: the logger of the first worker and the process group. *)
Definition start_worker (ww : WorkerWorld) (gpu ngpus_per_node : pyval) : prun unit :=
  rank0 <- lift (is_rank0 gpu ngpus_per_node) ;;
  (if rank0 : bool then emit (EGetLogger "train") ;;; emit ESetLevelInfo else ret tt) ;;;
  multi <- lift (py_gt_int ngpus_per_node 1) ;;
  if multi : bool then
    emit (EInitProcessGroup (if nccl_available ww then "nccl" else "gloo")
            "tcp://127.0.0.1:3333" ngpus_per_node gpu)
  else ret tt.

(** Lines 74-94: the transforms, the two datasets and their loaders. *)
Definition build_loaders (ww : WorkerWorld) (ngpus_per_node : pyval)
  : prun (dataset * loader * loader) :=
  h <- arg ww "img_size" ;;
  w <- arg ww "img_size" ;;
  let transforms_train := [Resize h w; ToTensor] in
  h' <- arg ww "img_size" ;;
  w' <- arg ww "img_size" ;;
  let transforms_val := [Resize h' w'; ToTensor] in
  src <- arg ww "srcDir" ;;
  root <- lift (str_add_right src "train") ;;
  let train_set := ImageFolder root transforms_train in
  call (call_raises ww (EImageFolder train_set)) (EImageFolder train_set) ;;;
  multi <- lift (py_gt_int ngpus_per_node 1) ;;
  train_sampler <-
    (if multi : bool then
       emit (EDistributedSampler train_set true) ;;;
       ret (Some (DistributedSampler train_set true))
     else ret None) ;;
  batch_size <- arg ww "batch_size" ;;
  num_workers <- arg ww "num_workers" ;;
  let train_loader :=
    DataLoader train_set batch_size num_workers false true train_sampler in
  call (call_raises ww (EDataLoader train_loader)) (EDataLoader train_loader) ;;;
  src' <- arg ww "srcDir" ;;
  root' <- lift (str_add_right src' "val") ;;
  let val_set := ImageFolder root' transforms_val in
  call (call_raises ww (EImageFolder val_set)) (EImageFolder val_set) ;;;
  batch_size' <- arg ww "batch_size" ;;
  num_workers' <- arg ww "num_workers" ;;
  let val_loader := DataLoader val_set batch_size' num_workers' false true None in
  call (call_raises ww (EDataLoader val_loader)) (EDataLoader val_loader) ;;;
  ret (train_set, train_loader, val_loader).

(** Lines 97-106: the model, announced by the first worker, moved and
    wrapped when there are several GPUs. *)
Definition build_model (ww : WorkerWorld) (gpu ngpus_per_node : pyval) : prun model :=
  cfg <- arg ww "model" ;;
  let m := Model cfg (num_train_classes ww) in
  emit (EModel cfg (num_train_classes ww)) ;;;
  rank0 <- lift (is_rank0 gpu ngpus_per_node) ;;
  (if rank0 : bool then
     emit (ELoggerInfo (LogStr "Data Ready!")) ;;;
     emit (ELoggerInfo (LogModel m)) ;;;
     emit (EWandbWatch m)
   else ret tt) ;;;
  multi <- lift (py_gt_int ngpus_per_node 1) ;;
  if multi : bool then
    emit (EModelTo m gpu) ;;;
    emit (EDDP (ModelTo m gpu) [gpu] gpu true) ;;;
    ret (DDP (ModelTo m gpu) [gpu] gpu true)
  else ret m.

Definition initial_locals : locals :=
  {| best_val_loss := 0; best_val_acc := 0;
     is_best_loss := None; is_best_acc := None; metrics_summary := None |}.

(** Lines 110-139: the optimizer and the criterion, the epoch loop, and the
    first worker's goodbye. *)
Definition run_training (ww : WorkerWorld) (gpu ngpus_per_node : pyval)
  (train_set : dataset) (train_loader val_loader : loader) (m : model) : prun unit :=
  lr <- arg ww "learning_rate" ;;
  let opt := SGD m lr 0.9%float 1e-5%float in
  call (call_raises ww (ESGD opt)) (ESGD opt) ;;;
  call (call_raises ww (ECriterionCuda gpu)) (ECriterionCuda gpu) ;;;
  let su := {| train_set := train_set; train_loader := train_loader;
               val_loader := val_loader; the_model := m;
               the_optimizer := opt;
               the_criterion := CrossEntropyLossCuda gpu |} in
  n <- arg ww "epochs" ;;
  epochs <- lift (py_range n) ;;
  epoch_loop ww gpu ngpus_per_node su initial_locals epochs ;;;
  rank0 <- lift (is_rank0 gpu ngpus_per_node) ;;
  if rank0 : bool then
    emit EWandbFinish ;;; emit (ELoggerInfo (LogStr "Finish"))
  else ret tt.

(** The body of [main_worker(gpu, ngpus_per_node)]. *)
Definition main_worker_body (ww : WorkerWorld) (gpu ngpus_per_node : pyval) : prun unit :=
  start_worker ww gpu ngpus_per_node ;;;
  loaders <- build_loaders ww ngpus_per_node ;;
  m <- build_model ww gpu ngpus_per_node ;;
  run_training ww gpu ngpus_per_node
    (fst (fst loaders)) (snd (fst loaders)) (snd loaders) m.

(** A call of [main_worker] on positional arguments: the function has exactly the two
    positional parameters [gpu] and [ngpus_per_node], so any other number of
    arguments is a [TypeError] raised before the body starts. *)
Definition main_worker (ww : WorkerWorld) (actuals : list pyval) : prun unit :=
  match actuals with
  | [gpu; ngpus_per_node] => main_worker_body ww gpu ngpus_per_node
  | _ => raise TypeError
  end.

(** ** [select_device] and [main] *)

(** Lines 31-40.  The function writes [CUDA_VISIBLE_DEVICES]; the run
    returns the value of that variable afterwards.  [os.environ] refuses a
    value with a NUL character ([ValueError]); the two devices the function
    builds are [torch.device('cuda:0')] and [torch.device('cpu')]. *)
Definition select_device (w : World) (env : option string) (device : pyval)
  : prun (option string) :=
  let device := remove_all "cuda:" (lower (strip (py_str (builtin_str w) device))) in
  let cpu := String.eqb device "cpu" in
  env' <-
    (if cpu then ret (Some "-1")
     else if negb (String.eqb device "") then
       (if has_nul device then raise ValueError
        else if cuda_is_available w (Some device) then ret (Some device)
        else raise AssertionError)
     else ret env) ;;
  let cuda := negb cpu && cuda_is_available w env' in
  emit (ETorchDevice (if cuda then "cuda:0" else "cpu")) ;;;
  ret env'.

(** [args["mode"][k]] *)
Definition mode_field (args : pyval) (k : string) : exn + pyval :=
  match subscript args "mode" with
  | inl e => inl e
  | inr mode => subscript mode k
  end.

(** Lines 46-47. *)
Definition backup_step (args : pyval) : prun unit :=
  backup <- lift (mode_field args "backup") ;;
  if py_eq_str backup "True" then emit (EBackup args) else ret tt.

(** Lines 52-54. *)
Definition wandb_step (args : pyval) : prun unit :=
  train <- lift (mode_field args "Train") ;;
  if py_eq_str train "True" then
    project <- lift (subscript args "project") ;;
    emit (EWandbInit project "baseline") ;;;
    emit (EWandbConfigUpdate args)
  else ret tt.

(** Lines 56-59; the run returns [CUDA_VISIBLE_DEVICES]. *)
Definition device_step (w : World) (args : pyval) : prun (option string) :=
  gpus <- lift (subscript args "gpus") ;;
  n <- lift (py_len gpus) ;;
  if 1 <? n then
    gpus' <- lift (subscript args "gpus") ;;
    _ <- lift (subscript args "batch_size") ;;
    select_device w (cuda_visible_devices w) gpus'
  else
    gpus' <- lift (subscript args "gpus") ;;
    name <- lift (str_add_left "cuda:" gpus') ;;
    call (torch_device_raises w name) (ETorchDevice name) ;;;
    ret (cuda_visible_devices w).

(** Lines 44-61: everything [main] does before it spawns.  The run returns
    the loaded configuration, the value of [CUDA_VISIBLE_DEVICES] and
    [ngpus_per_node]. *)
Definition main_prelude (w : World) : prun (pyval * option string * nat) :=
  args <- lift (config_file w) ;;
  backup_step args ;;;
  wandb_step args ;;;
  env <- device_step w args ;;
  ret (args, env, cuda_device_count w env).

(** A started worker is a fresh interpreter that imports the module again:
    the assignment to [args] under [if __name__ == '__main__'] does not run
    there, so the name is unbound. *)
Definition spawned_world (ww : WorkerWorld) : WorkerWorld :=
  {| global_args := None;
     nccl_available := nccl_available ww;
     num_train_classes := num_train_classes ww;
     train_result := train_result ww;
     val_result := val_result ww;
     worker_str := worker_str ww;
     call_raises := call_raises ww |}.

(** [mp.spawn(fn, nprocs=nprocs, args=args)]: process [i] calls
    [fn(i, *args)], for [i] from [0] to [nprocs - 1]. *)
Definition mp_spawn (fn : WorkerWorld -> list pyval -> prun unit) (w : World)
  (nprocs : nat) (args : list pyval) : list (prun unit) :=
  map (fun i => fn (spawned_world (worker_world w i)) (VInt (Z.of_nat i) :: args))
      (seq 0 nprocs).

Definition succeeded (r : prun unit) : bool :=
  match outcome r with
  | inr _ => true
  | inl _ => false
  end.

(** What a run of [main] amounts to: the run of the launching process and
    the runs of the workers it started. *)
Record launch : Type := {
  parent : prun unit;
  workers : list (prun unit)
}.

Definition main (w : World) : launch :=
  let pre := main_prelude w in
  match outcome pre with
  | inl e => {| parent := (trace pre, inl e); workers := [] |}
  | inr (args, _, ngpus_per_node) =>
      let spawn_args := [VInt (Z.of_nat ngpus_per_node); args] in
      let ws := mp_spawn main_worker w ngpus_per_node spawn_args in
      {| parent := (trace pre ++ [ESpawn ngpus_per_node spawn_args],
                    if forallb succeeded ws then inr tt
                    else inl ProcessRaisedException);
         workers := ws |}
  end.

(** ** Module import: the seeds

    Lines 21-25.  The two generators are the framework's; what the script
    fixes is the state they start from.  A generator is a state, a way to
    seed it and a way to draw from it. *)

Section Seeds.

Variables torch_gen np_gen : Type.
Variable torch_manual_seed : Z -> torch_gen.
Variable np_random_seed : Z -> np_gen.
Variable torch_draw : torch_gen -> Z * torch_gen.
Variable np_draw : np_gen -> Z * np_gen.

Record rng_globals : Type := {
  torch_rng : torch_gen;
  np_rng : np_gen;
  cudnn_deterministic : bool;
  cudnn_benchmark : bool
}.

Definition SEED : Z := 123.

(** The four statements, in their order. *)
Definition module_import (g : rng_globals) : rng_globals :=
  let g1 := {| torch_rng := torch_manual_seed SEED; np_rng := np_rng g;
               cudnn_deterministic := cudnn_deterministic g;
               cudnn_benchmark := cudnn_benchmark g |} in
  let g2 := {| torch_rng := torch_rng g1; np_rng := np_rng g1;
               cudnn_deterministic := true;
               cudnn_benchmark := cudnn_benchmark g1 |} in
  let g3 := {| torch_rng := torch_rng g2; np_rng := np_rng g2;
               cudnn_deterministic := cudnn_deterministic g2;
               cudnn_benchmark := false |} in
  {| torch_rng := torch_rng g3; np_rng := np_random_seed SEED;
     cudnn_deterministic := cudnn_deterministic g3;
     cudnn_benchmark := cudnn_benchmark g3 |}.

(** The first [n] numbers a generator gives from a state. *)
Fixpoint draws {G : Type} (draw : G -> Z * G) (n : nat) (s : G) : list Z :=
  match n with
  | O => []
  | S k => fst (draw s) :: draws draw k (snd (draw s))
  end.

End Seeds.

(** ** A configuration and a machine to run the definitions on *)

Module Sample.

Definition config : pyval :=
  VDict [("project", VStr "template");
         ("mode", VDict [("backup", VStr "True"); ("Train", VStr "True")]);
         ("gpus", VStr "0");
         ("img_size", VInt 224);
         ("srcDir", VStr "data/");
         ("saveDir", VStr "ckpt");
         ("batch_size", VInt 32);
         ("num_workers", VInt 4);
         ("model", VStr "resnet");
         ("learning_rate", VFloat 0x1p-7%float);
         ("epochs", VInt 2)].

Definition worker : WorkerWorld :=
  {| global_args := Some config;
     nccl_available := true;
     num_train_classes := 10;
     train_result := fun epoch =>
       [("acc", VFloat 0x1p-1%float); ("loss", VFloat 0x1p0%float)];
     val_result := fun epoch =>
       [("val_acc", VFloat 0x1p-2%float); ("val_loss", VFloat 0x1p1%float)];
     worker_str := fun _ => "";
     call_raises := fun _ => None |}.

(** Two visible devices, whatever [CUDA_VISIBLE_DEVICES] says. *)
Definition world : World :=
  {| config_file := inr config;
     cuda_visible_devices := None;
     cuda_is_available := fun _ => true;
     cuda_device_count := fun _ => 2%nat;
     torch_device_raises := fun _ => None;
     builtin_str := fun _ => "";
     worker_world := fun _ => worker |}.

(** The configuration with another value under one key. *)
Definition config_with (k : string) (v : pyval) : pyval :=
  match config with
  | VDict d => VDict (dict_set k v d)
  | _ => config
  end.

(** The number of entries of a comma-separated list. *)
Fixpoint listed (s : string) : nat :=
  match s with
  | String c s' => if (nat_of_ascii c =? 44)%nat then S (listed s') else listed s'
  | EmptyString => 1
  end.

(** A machine with eight CUDA devices: all of them show when
    [CUDA_VISIBLE_DEVICES] is unset, none when it is ["-1"], and as many as
    the variable lists otherwise. *)
Definition eight_gpus (cfg : pyval) : World :=
  {| config_file := inr cfg;
     cuda_visible_devices := None;
     cuda_is_available := fun _ => true;
     cuda_device_count := fun env =>
       match env with
       | None => 8%nat
       | Some s => if String.eqb s "-1" then 0%nat else Nat.min 8 (listed s)
       end;
     torch_device_raises := fun _ => None;
     builtin_str := fun _ => "";
     worker_world := fun _ => worker |}.

(** What the worker with [gpu = 0] and [ngpus_per_node = 1] has built when
    it enters the loop. *)
Definition transforms : list transform := [Resize (VInt 224) (VInt 224); ToTensor].

Definition loaders : dataset * loader * loader :=
  (ImageFolder "data/train" transforms,
   DataLoader (ImageFolder "data/train" transforms) (VInt 32) (VInt 4)
     false true None,
   DataLoader (ImageFolder "data/val" transforms) (VInt 32) (VInt 4)
     false true None).

Definition built : setup :=
  {| train_set := fst (fst loaders);
     train_loader := snd (fst loaders);
     val_loader := snd loaders;
     the_model := Model (VStr "resnet") 10;
     the_optimizer :=
       SGD (Model (VStr "resnet") 10) (VFloat 0x1p-7%float) 0.9%float 1e-5%float;
     the_criterion := CrossEntropyLossCuda (VInt 0) |}.

(** The local variables at the end of the iteration of [epoch]. *)
Definition after_epoch (epoch : Z) : locals :=
  {| best_val_loss := 0;
     best_val_acc := 0;
     is_best_loss := Some false;
     is_best_acc := Some true;
     metrics_summary := Some (epoch_metrics worker epoch) |}.

End Sample.

(** ** What is observed of a run *)

(** [quiet p m]: the run [m] emits no event that [p] selects. *)
Definition quiet {E A : Type} (p : E -> bool) (m : run E A) : Prop :=
  filter p (trace m) = [].

(** [always P m]: every event of the run [m] satisfies [P]. *)
Definition always {E A : Type} (P : E -> Prop) (m : run E A) : Prop :=
  forall e, In e (trace m) -> P e.

(** ** The events of a kind *)

Definition is_backup (e : event) : bool :=
  match e with EBackup _ => true | _ => false end.

Definition is_wandb_start (e : event) : bool :=
  match e with EWandbInit _ _ | EWandbConfigUpdate _ => true | _ => false end.

Definition is_spawn (e : event) : bool :=
  match e with ESpawn _ _ => true | _ => false end.

Definition is_init_process_group (e : event) : bool :=
  match e with EInitProcessGroup _ _ _ _ => true | _ => false end.

Definition is_data_loader (e : event) : bool :=
  match e with EDataLoader _ => true | _ => false end.

Definition is_move_or_wrap (e : event) : bool :=
  match e with EModelTo _ _ | EDDP _ _ _ _ => true | _ => false end.

Definition is_epoch_event (e : event) : bool :=
  match e with
  | ETrain _ _ _ _ _ _ _ | EVal _ _ _ _ _ _
  | ESaveCheckpoint _ _ _ _ _ | EWandbLog _ => true
  | _ => false
  end.

Definition is_model_built (e : event) : bool :=
  match e with EModel _ _ => true | _ => false end.

(** The test [(ngpus_per_node == 1) or (ngpus_per_node > 1 and gpu == 0)]
    on integers. *)
Definition rank0 (g n : Z) : bool := (n =? 1) || ((1 <? n) && (g =? 0)).

(** The model an event works on, for the calls that come after the model
    has (or has not) been wrapped. *)
Definition model_used (e : event) : option model :=
  match e with
  | ESGD opt => Some (opt_model opt)
  | ETrain _ m _ _ _ _ _ => Some m
  | EVal _ m _ _ _ _ => Some m
  | ESaveCheckpoint m _ _ _ _ => Some m
  | _ => None
  end.

Definition uses (m : model) (e : event) : Prop :=
  forall m', model_used e = Some m' -> m' = m.

(** The loader an event of the epoch loop is given: [train] the first one,
    [val] the second. *)
Definition feeds (tl vl : loader) (e : event) : Prop :=
  match e with
  | ETrain ld _ _ _ _ _ _ => ld = tl
  | EVal ld _ _ _ _ _ => ld = vl
  | _ => True
  end.

(** [main_worker] with another value for the global [args]. *)
Definition with_args (ww : WorkerWorld) (a : option pyval) : WorkerWorld :=
  {| global_args := a;
     nccl_available := nccl_available ww;
     num_train_classes := num_train_classes ww;
     train_result := train_result ww;
     val_result := val_result ww;
     worker_str := worker_str ww;
     call_raises := call_raises ww |}.

(** [metrics_summary[k]] at [epoch], and whether the key is there. *)
Definition metric (ww : WorkerWorld) (epoch : Z) (k : string) : pyval :=
  match dict_get k (epoch_metrics ww epoch) with
  | Some v => v
  | None => VNone
  end.

Definition has_metric (ww : WorkerWorld) (epoch : Z) (k : string) : bool :=
  match dict_get k (epoch_metrics ww epoch) with
  | Some _ => true
  | None => false
  end.

Definition is_number (v : pyval) : bool :=
  match v with
  | VInt _ | VBool _ | VFloat _ => true
  | _ => false
  end.

(** [v < 0], for a number [v]. *)
Definition below_zero (v : pyval) : bool :=
  match py_lt_int v 0 with
  | inr b => b
  | inl _ => false
  end.

(** What the loop needs from [train] and [val] at [epoch]: [val_loss] and
    [val_acc] are numbers, and the worker that logs finds [acc] and [loss]
    too. *)
Definition metrics_ok (ww : WorkerWorld) (first : bool) (epoch : Z) : bool :=
  has_metric ww epoch "val_loss" && is_number (metric ww epoch "val_loss")
  && has_metric ww epoch "val_acc" && is_number (metric ww epoch "val_acc")
  && (negb first || (has_metric ww epoch "acc" && has_metric ww epoch "loss")).

(** The calls the claim lists for one epoch, in its order: [train] on the
    training loader, [val] on the validation loader and then, for the
    worker with [rank0 g n], [save_checkpoint] and [wandb.log]. *)
Definition claimed_epoch (ww : WorkerWorld) (g n : Z) (su : setup)
  (save_dir epochs : pyval) (epoch : Z) : list event :=
  [ETrain (train_loader su) (the_model su) (VInt g) (the_optimizer su)
     (the_criterion su) epoch epochs;
   EVal (val_loader su) (the_model su) (the_criterion su) (VInt g) epoch epochs]
  ++ (if rank0 g n then
        [ESaveCheckpoint (the_model su) (epoch + 1) (metric ww epoch "val_acc")
           (below_zero (metric ww epoch "val_loss"))
           (py_str (worker_str ww) save_dir ++ "_"
            ++ decimal (num_train_classes ww))%string;
         EWandbLog [("epoch", VInt epoch);
                    ("acc", metric ww epoch "acc");
                    ("loss", metric ww epoch "loss");
                    ("val_acc", metric ww epoch "val_acc");
                    ("val_loss", metric ww epoch "val_loss")]]
      else []).

(** ** What is observed of the launcher and of the other workers *)

(** Line 32: the requested device as [select_device] reads it. *)
Definition normalized_device (w : World) (device : pyval) : string :=
  remove_all "cuda:" (lower (strip (py_str (builtin_str w) device))).

Definition is_torch_device (e : event) : bool :=
  match e with ETorchDevice _ => true | _ => false end.

(** The calls only the first worker makes: its logger, the tracker and the
    checkpoints. *)
Definition is_first_worker_event (e : event) : bool :=
  match e with
  | EGetLogger _ | ESetLevelInfo | ELoggerInfo _ | EWandbWatch _
  | ESaveCheckpoint _ _ _ _ _ | EWandbLog _ | EWandbFinish => true
  | _ => false
  end.

Definition is_wandb_finish (e : event) : bool :=
  match e with EWandbFinish => true | _ => false end.

(** A number that is not below zero: an integer from [0] on, a [bool], a
    float that is zero, not a number, or has its sign bit clear. *)
Definition not_below_zero (v : pyval) : Prop :=
  match v with
  | VInt z => 0 <= z
  | VBool _ => True
  | VFloat f =>
      match Prim2SF f with
      | S754_infinity true | S754_finite true _ _ => False
      | _ => True
      end
  | _ => False
  end.

(** What an event of the epoch loop says about the epoch it belongs to,
    for a loop over [E] epochs: [train] and [val] get an epoch from [0] to
    [E - 1] and the total [E], a checkpoint is numbered from [1] to [E], and
    [wandb.log] gets the five metrics with an epoch from [0] to [E - 1]. *)
Definition numbered_within (E : Z) (e : event) : Prop :=
  match e with
  | ETrain _ _ _ _ _ epoch epochs => 0 <= epoch < E /\ epochs = VInt E
  | EVal _ _ _ _ epoch epochs => 0 <= epoch < E /\ epochs = VInt E
  | ESaveCheckpoint _ ep _ _ _ => 1 <= ep <= E
  | EWandbLog entries =>
      map fst entries = ["epoch"; "acc"; "loss"; "val_acc"; "val_loss"]
      /\ exists epoch, 0 <= epoch < E /\ dict_get "epoch" entries = Some (VInt epoch)
  | _ => True
  end.

(** What [wandb.watch] and [logger.info(model)] are given: the model as
    [Model(...)] built it, for [nc] classes. *)
Definition shows_bare_model (nc : nat) (e : event) : Prop :=
  match e with
  | EWandbWatch m | ELoggerInfo (LogModel m) => exists cfg, m = Model cfg nc
  | _ => True
  end.

(** * Properties *)

(** ** The builtins on examples *)

Example float_neg_lt_0 : py_lt_int (VFloat (-0.25)%float) 0 = inr true.
Proof. vm_compute. reflexivity. Qed.

Example float_nan_lt_0 : py_lt_int (VFloat nan) 0 = inr false.
Proof. vm_compute. reflexivity. Qed.

Example float_tiny_gt_0 : py_gt_int (VFloat 0x1p-1074%float) 0 = inr true.
Proof. vm_compute. reflexivity. Qed.

Example str_lt_0 : py_lt_int (VStr "0.5") 0 = inl TypeError.
Proof. reflexivity. Qed.

Example strip_lower_replace :
  remove_all "cuda:" (lower (strip "  CUDA:0,cuda:1 ")) = "0,1".
Proof. reflexivity. Qed.

Example dict_update_overrides :
  dict_update [("acc", VInt 1); ("loss", VInt 2)] [("loss", VInt 3); ("val_acc", VInt 4)]
  = [("acc", VInt 1); ("loss", VInt 3); ("val_acc", VInt 4)].
Proof. reflexivity. Qed.

(** ** Runs *)

Section RunFacts.
Context {E : Type}.

Lemma trace_bind {A B} (m : run E A) (k : A -> run E B) :
  trace (bind m k)
  = trace m ++ match outcome m with
               | inr a => trace (k a)
               | inl _ => []
               end.
Proof.
  unfold bind, trace, outcome.
  destruct (snd m); simpl; [rewrite app_nil_r|]; reflexivity.
Qed.

Lemma outcome_bind {A B} (m : run E A) (k : A -> run E B) :
  outcome (bind m k)
  = match outcome m with
    | inr a => outcome (k a)
    | inl e => inl e
    end.
Proof. unfold bind, outcome. destruct (snd m); reflexivity. Qed.

Lemma quiet_ret {A} (p : E -> bool) (a : A) : quiet p (ret a).
Proof. reflexivity. Qed.

Lemma quiet_raise {A} (p : E -> bool) e : quiet p (@raise E A e).
Proof. reflexivity. Qed.

Lemma quiet_lift {A} (p : E -> bool) (r : exn + A) : quiet p (lift r).
Proof. reflexivity. Qed.

Lemma quiet_emit (p : E -> bool) ev : p ev = false -> quiet p (emit ev).
Proof. unfold quiet; simpl; intros ->; reflexivity. Qed.

Lemma quiet_bind {A B} (p : E -> bool) (m : run E A) (k : A -> run E B) :
  quiet p m -> (forall a, quiet p (k a)) -> quiet p (bind m k).
Proof.
  unfold quiet; intros Hm Hk.
  rewrite trace_bind, filter_app, Hm.
  destruct (outcome m); simpl; auto.
Qed.

Lemma quiet_not_In {A} (p : E -> bool) (m : run E A) ev :
  quiet p m -> In ev (trace m) -> p ev = false.
Proof.
  unfold quiet; intros Hq Hin.
  destruct (p ev) eqn:Hp; [|reflexivity].
  assert (Hf : In ev (filter p (trace m))) by (apply filter_In; auto).
  rewrite Hq in Hf; destruct Hf.
Qed.

Lemma filter_trace_bind {A B} (p : E -> bool) (m : run E A) (k : A -> run E B) :
  filter p (trace (bind m k))
  = filter p (trace m) ++ match outcome m with
                          | inr a => filter p (trace (k a))
                          | inl _ => []
                          end.
Proof. rewrite trace_bind, filter_app. destruct (outcome m); reflexivity. Qed.

End RunFacts.

Lemma trace_call (r : option exn) (ev : event) : trace (call r ev) = [ev].
Proof. destruct r; reflexivity. Qed.

Lemma outcome_call (r : option exn) (ev : event) :
  outcome (call r ev) = match r with
                        | Some x => inl x
                        | None => inr tt
                        end.
Proof. destruct r; reflexivity. Qed.

Lemma quiet_call (p : event -> bool) (r : option exn) (ev : event) :
  p ev = false -> quiet p (call r ev).
Proof. unfold quiet. rewrite trace_call. simpl. intros ->. reflexivity. Qed.

(** Discharges [quiet] goals along the structure of a run. *)
Ltac quiet_step :=
  match goal with
  | |- quiet _ (call _ _) => apply quiet_call; reflexivity
  | |- quiet _ (bind _ _) => apply quiet_bind; [|intros]
  | |- quiet _ (ret _) => apply quiet_ret
  | |- quiet _ (raise _) => apply quiet_raise
  | |- quiet _ (lift _) => apply quiet_lift
  | |- quiet _ (emit _) => apply quiet_emit; reflexivity
  | |- quiet _ (if ?c then _ else _) => destruct c
  | |- quiet _ (match ?x with _ => _ end) => destruct x
  | |- quiet _ (let _ := _ in _) => cbv zeta
  end.

Ltac quiet_run := repeat quiet_step.

(** Runs a run as far as its data allow. *)
Ltac run_simpl :=
  cbn [bind lift ret emit raise trace outcome fst snd app filter].

(** ** [main] *)

Lemma py_eq_str_spec (v : pyval) (s : string) :
  py_eq_str v s = true <-> v = VStr s.
Proof.
  destruct v; simpl; try (split; discriminate).
  rewrite String.eqb_eq.
  split; [intros ->; reflexivity | intros [= ->]; reflexivity].
Qed.

Lemma main_parent_trace (w : World) :
  trace (parent (main w))
  = trace (main_prelude w)
    ++ match outcome (main_prelude w) with
       | inr (args, _, n) => [ESpawn n [VInt (Z.of_nat n); args]]
       | inl _ => []
       end.
Proof.
  unfold main.
  destruct (outcome (main_prelude w)) as [e | [[args env] n]]; simpl;
    [rewrite app_nil_r|]; reflexivity.
Qed.

Lemma main_workers (w : World) :
  workers (main w)
  = match outcome (main_prelude w) with
    | inr (args, _, n) => mp_spawn main_worker w n [VInt (Z.of_nat n); args]
    | inl _ => []
    end.
Proof.
  unfold main.
  destruct (outcome (main_prelude w)) as [e | [[args env] n]]; reflexivity.
Qed.

Lemma select_device_quiet p (w : World) env device :
  p (ETorchDevice "cuda:0") = false -> p (ETorchDevice "cpu") = false ->
  quiet p (select_device w env device).
Proof.
  intros H1 H2. unfold select_device. cbv zeta.
  apply quiet_bind; [quiet_run|intros].
  apply quiet_bind; [|intros; quiet_run].
  apply quiet_emit. destruct (_ && _); assumption.
Qed.

Lemma device_step_quiet p (w : World) args :
  (forall s, p (ETorchDevice s) = false) -> quiet p (device_step w args).
Proof.
  intros H. unfold device_step.
  repeat first [apply select_device_quiet; apply H
               | apply quiet_emit; apply H
               | apply quiet_call; apply H
               | quiet_step].
Qed.

Lemma wandb_step_quiet p args :
  (forall e, is_wandb_start e = true -> p e = false) -> quiet p (wandb_step args).
Proof.
  intros H. unfold wandb_step.
  repeat first [apply quiet_emit; apply H; reflexivity | quiet_step].
Qed.

Lemma backup_step_quiet p args :
  (forall e, is_backup e = true -> p e = false) -> quiet p (backup_step args).
Proof.
  intros H. unfold backup_step.
  repeat first [apply quiet_emit; apply H; reflexivity | quiet_step].
Qed.

Lemma main_filter (p : event -> bool) (w : World) (args : pyval) :
  config_file w = inr args ->
  filter p (trace (main_prelude w))
  = filter p (trace (backup_step args))
    ++ match outcome (backup_step args) with
       | inl _ => []
       | inr _ =>
           filter p (trace (wandb_step args))
           ++ match outcome (wandb_step args) with
              | inl _ => []
              | inr _ => filter p (trace (device_step w args))
              end
       end.
Proof.
  intros Hcfg. unfold main_prelude. rewrite Hcfg.
  rewrite filter_trace_bind. cbn [lift trace outcome fst snd filter app].
  rewrite filter_trace_bind.
  destruct (outcome (backup_step args)); [reflexivity|].
  rewrite filter_trace_bind.
  destruct (outcome (wandb_step args)); [reflexivity|].
  rewrite filter_trace_bind.
  destruct (outcome (device_step w args)); cbn; rewrite app_nil_r; reflexivity.
Qed.

Lemma main_parent_filter (p : event -> bool) (w : World) :
  (forall n a, p (ESpawn n a) = false) ->
  filter p (trace (parent (main w))) = filter p (trace (main_prelude w)).
Proof.
  intros Hp. rewrite main_parent_trace, filter_app.
  destruct (outcome (main_prelude w)) as [e | [[args env] n]]; simpl;
    [|rewrite Hp]; apply app_nil_r.
Qed.

Lemma backup_step_taken (args : pyval) :
  mode_field args "backup" = inr (VStr "True") ->
  filter is_backup (trace (backup_step args)) = [EBackup args].
Proof. unfold backup_step. intros ->. reflexivity. Qed.

Lemma backup_step_skipped (args : pyval) :
  mode_field args "backup" <> inr (VStr "True") ->
  filter is_backup (trace (backup_step args)) = [].
Proof.
  unfold backup_step. intros Hne.
  destruct (mode_field args "backup") as [e | v]; [reflexivity|].
  destruct (py_eq_str v "True") eqn:Hv.
  - apply py_eq_str_spec in Hv. subst v. contradiction.
  - run_simpl. rewrite Hv. reflexivity.
Qed.

Lemma main_backup_events (w : World) (args : pyval) :
  config_file w = inr args ->
  filter is_backup (trace (parent (main w)))
  = filter is_backup (trace (backup_step args)).
Proof.
  intros Hcfg.
  rewrite main_parent_filter by reflexivity.
  rewrite (main_filter _ _ _ Hcfg).
  rewrite (wandb_step_quiet is_backup), (device_step_quiet is_backup);
    try (intros []; simpl; congruence).
  destruct (outcome (backup_step args)); [|destruct (outcome (wandb_step args))];
    rewrite ?app_nil_r; reflexivity.
Qed.

(** C3: once the configuration is loaded, [main] calls [backup(args)]
    exactly when [args["mode"]["backup"]] is the string ["True"]; with any
    other value there, the JSON boolean [true] included, nothing is backed
    up. *)
Theorem main_backup_iff (w : World) (args : pyval) :
  config_file w = inr args ->
  (In (EBackup args) (trace (parent (main w)))
   <-> mode_field args "backup" = inr (VStr "True"))
  /\ (mode_field args "backup" <> inr (VStr "True") ->
      filter is_backup (trace (parent (main w))) = [])
  /\ (mode_field args "backup" = inr (VBool true) ->
      forall a, ~ In (EBackup a) (trace (parent (main w)))).
Proof.
  intros Hcfg.
  pose proof (main_backup_events w args Hcfg) as Hev.
  assert (Hskip : mode_field args "backup" <> inr (VStr "True") ->
                  filter is_backup (trace (parent (main w))) = []).
  { intros Hne. rewrite Hev. apply backup_step_skipped, Hne. }
  split; [split|split].
  - intros Hin.
    assert (Hf : In (EBackup args) (filter is_backup (trace (parent (main w)))))
      by (apply filter_In; split; [exact Hin | reflexivity]).
    destruct (mode_field args "backup") as [e | v] eqn:Hm.
    + rewrite Hskip in Hf by discriminate. destruct Hf.
    + destruct (py_eq_str v "True") eqn:Hv.
      * apply py_eq_str_spec in Hv. subst v. reflexivity.
      * rewrite Hskip in Hf; [destruct Hf|].
        intros [= ->]. vm_compute in Hv. discriminate.
  - intros Htrue.
    assert (Hf : In (EBackup args) (filter is_backup (trace (parent (main w))))).
    { rewrite Hev, (backup_step_taken _ Htrue). left; reflexivity. }
    apply filter_In in Hf. apply Hf.
  - exact Hskip.
  - intros Hb a Hin.
    assert (Hf : In (EBackup a) (filter is_backup (trace (parent (main w)))))
      by (apply filter_In; split; [exact Hin | reflexivity]).
    rewrite Hskip in Hf; [destruct Hf|].
    rewrite Hb. discriminate.
Qed.

Lemma main_backup_iff_witness :
  In (EBackup Sample.config) (trace (parent (main Sample.world)))
  <-> mode_field Sample.config "backup" = inr (VStr "True").
Proof.
  apply (main_backup_iff Sample.world Sample.config). reflexivity.
Defined.

(** C1: whatever the configuration, every worker that [mp.spawn] starts
    ends with a [TypeError] and an empty trace: it is called with the three
    arguments [(i, ngpus_per_node, args)] while [main_worker] takes two, so
    no statement of its body runs (no data loading, no training step, no
    checkpoint). *)
Theorem spawned_worker_raises_TypeError (w : World) (r : prun unit) :
  In r (workers (main w)) ->
  r = ([], inl TypeError)
  /\ filter is_epoch_event (trace r) = [].
Proof.
  intros Hin.
  assert (Hall : forall r', In r' (workers (main w)) -> r' = ([], inl TypeError)).
  { intros r'. rewrite main_workers.
    destruct (outcome (main_prelude w)) as [e | [[args env] n]];
      [intros [] |].
    unfold mp_spawn. rewrite in_map_iff. intros [i [<- _]]. reflexivity. }
  pose proof (Hall r Hin) as Hr. subst r.
  split; reflexivity.
Qed.

Lemma spawned_worker_raises_TypeError_witness :
  nth 1 (workers (main Sample.world)) ([], inr tt) = ([], inl TypeError)
  /\ filter is_epoch_event
       (trace (nth 1 (workers (main Sample.world)) ([], inr tt))) = [].
Proof.
  apply (spawned_worker_raises_TypeError Sample.world).
  vm_compute. right; left; reflexivity.
Defined.

Lemma main_prelude_outcome (w : World) args env n :
  outcome (main_prelude w) = inr (args, env, n) ->
  config_file w = inr args
  /\ outcome (device_step w args) = inr env
  /\ n = cuda_device_count w env.
Proof.
  unfold main_prelude. rewrite outcome_bind.
  cbn [lift outcome snd].
  destruct (config_file w) as [e | a]; [discriminate|].
  rewrite !outcome_bind.
  destruct (outcome (backup_step a)); [discriminate|].
  destruct (outcome (wandb_step a)); [discriminate|].
  destruct (outcome (device_step w a)) as [e | env'] eqn:Hd; [discriminate|].
  cbn. intros [= <- <- <-]. repeat split; auto.
Qed.

(** [CUDA_VISIBLE_DEVICES] after lines 56-59, when they return. *)
Lemma device_step_env (w : World) (args g : pyval) (k : Z) env :
  subscript args "gpus" = inr g ->
  py_len g = inr k ->
  outcome (device_step w args) = inr env ->
  env = if 1 <? k then
          if String.eqb (normalized_device w g) "cpu" then Some "-1"
          else if String.eqb (normalized_device w g) "" then cuda_visible_devices w
          else Some (normalized_device w g)
        else cuda_visible_devices w.
Proof.
  intros Hg Hk. unfold device_step. rewrite Hg. run_simpl.
  rewrite Hk. run_simpl.
  destruct (1 <? k); run_simpl.
  - destruct (subscript args "batch_size") as [x | bs]; run_simpl;
      [discriminate|].
    unfold select_device, normalized_device. cbv zeta.
    destruct (String.eqb _ "cpu"); run_simpl; [intros [= <-]; reflexivity|].
    destruct (String.eqb _ ""); cbn [negb]; run_simpl;
      [intros [= <-]; reflexivity|].
    destruct (has_nul _); run_simpl; [discriminate|].
    destruct (cuda_is_available w (Some _)); run_simpl;
      [intros [= <-]; reflexivity | discriminate].
  - destruct (str_add_left "cuda:" g) as [x | name]; run_simpl; [discriminate|].
    destruct (torch_device_raises w name);
      cbn [call bind emit ret raise trace outcome fst snd];
      [discriminate | intros [= <-]; reflexivity].
Qed.

(** C4, as the code has it: in a run of [main] that gets to [mp.spawn], the
    number of workers started is what [torch.cuda.device_count()] returned
    just before (the devices visible under the [CUDA_VISIBLE_DEVICES] of
    that moment), one worker for each index below it.  The [gpus] field
    takes part through that variable: a value longer than one is written
    to it by [select_device] (["-1"] for ["cpu"], nothing for a value that
    is empty once normalised), a value not longer than one leaves it as
    [main] found it. *)
Theorem spawn_count_is_device_count (w : World) args env n :
  outcome (main_prelude w) = inr (args, env, n) ->
  outcome (device_step w args) = inr env
  /\ n = cuda_device_count w env
  /\ List.length (workers (main w)) = cuda_device_count w env
  /\ filter is_spawn (trace (parent (main w)))
     = [ESpawn n [VInt (Z.of_nat n); args]]
  /\ (forall i, (i < n)%nat ->
        nth i (workers (main w)) ([], inr tt)
        = main_worker (spawned_world (worker_world w i))
            [VInt (Z.of_nat i); VInt (Z.of_nat n); args])
  /\ (exists g k,
        subscript args "gpus" = inr g
        /\ py_len g = inr k
        /\ (k <= 1 -> env = cuda_visible_devices w)
        /\ (1 < k ->
            env = if String.eqb (normalized_device w g) "cpu" then Some "-1"
                  else if String.eqb (normalized_device w g) ""
                       then cuda_visible_devices w
                       else Some (normalized_device w g))).
Proof.
  intros Hpre.
  destruct (main_prelude_outcome _ _ _ _ Hpre) as (Hcfg & Hdev & Hn).
  assert (Hlen : forall w0 a0 e0 n0,
             outcome (main_prelude w0) = inr (a0, e0, n0) ->
             List.length (workers (main w0)) = n0).
  { intros w0 a0 e0 n0 H0. rewrite main_workers, H0.
    unfold mp_spawn. rewrite length_map, length_seq. reflexivity. }
  split; [exact Hdev|]. split; [exact Hn|].
  split; [rewrite (Hlen _ _ _ _ Hpre); exact Hn|].
  split; [|split].
  - rewrite main_parent_trace, filter_app, Hpre.
    rewrite (main_filter _ _ _ Hcfg).
    rewrite (backup_step_quiet is_spawn), (wandb_step_quiet is_spawn),
      (device_step_quiet is_spawn); try (intros []; simpl; congruence).
    destruct (outcome (backup_step args));
      [|destruct (outcome (wandb_step args))]; reflexivity.
  - intros i Hi. rewrite main_workers, Hpre. unfold mp_spawn.
    set (f := fun i : nat =>
                main_worker (spawned_world (worker_world w i))
                  [VInt (Z.of_nat i); VInt (Z.of_nat n); args]).
    rewrite (nth_indep _ _ (f 0%nat))
      by (rewrite length_map, length_seq; exact Hi).
    rewrite map_nth.
    rewrite seq_nth by exact Hi. reflexivity.
  - destruct (subscript args "gpus") as [x | g] eqn:Hg.
    { unfold device_step in Hdev. rewrite Hg in Hdev. discriminate Hdev. }
    destruct (py_len g) as [x | k] eqn:Hk.
    { unfold device_step in Hdev. rewrite Hg in Hdev.
      cbn [bind lift trace outcome fst snd] in Hdev.
      rewrite Hk in Hdev. discriminate Hdev. }
    exists g, k. split; [reflexivity|]. split; [exact Hk|].
    pose proof (device_step_env w args g k env Hg Hk Hdev) as Henv.
    split; intros Hlt.
    + destruct (Z.ltb_spec 1 k); [lia | exact Henv].
    + destruct (Z.ltb_spec 1 k); [exact Henv | lia].
Qed.

(** The configuration lists two GPUs on a machine with eight: two
    workers. *)
Lemma spawn_count_is_device_count_witness :
  List.length
    (workers (main (Sample.eight_gpus (Sample.config_with "gpus" (VStr "0,1")))))
  = 2%nat.
Proof.
  apply (spawn_count_is_device_count
           (Sample.eight_gpus (Sample.config_with "gpus" (VStr "0,1")))
           (Sample.config_with "gpus" (VStr "0,1")) (Some "0,1") 2).
  reflexivity.
Defined.

(** C4, as the claim has it, fails: the count is not independent of the
    [gpus] field.  On a machine with eight devices a configuration with
    ["gpus": "0"] starts eight workers and the same configuration with
    ["gpus": "0,1"] starts two. *)
Lemma spawn_count_depends_on_gpus :
  List.length
    (workers (main (Sample.eight_gpus (Sample.config_with "gpus" (VStr "0")))))
  = 8%nat
  /\ List.length
       (workers (main (Sample.eight_gpus (Sample.config_with "gpus" (VStr "0,1")))))
     = 2%nat.
Proof. split; reflexivity. Qed.

(** ** [main_worker] *)

Lemma py_gt_int_VInt (n z : Z) : py_gt_int (VInt n) z = inr (z <? n).
Proof.
  unfold py_gt_int, compare_with_int, Z.ltb.
  rewrite (Z.compare_antisym n z).
  destruct (n ?= z); reflexivity.
Qed.

Lemma py_lt_int_VInt (n z : Z) : py_lt_int (VInt n) z = inr (n <? z).
Proof.
  unfold py_lt_int, compare_with_int, Z.ltb.
  destruct (n ?= z); reflexivity.
Qed.

Lemma py_eq_int_VInt (n z : Z) : py_eq_int (VInt n) z = (n =? z).
Proof.
  unfold py_eq_int, compare_with_int.
  destruct (Z.compare_spec n z), (Z.eqb_spec n z); try reflexivity; lia.
Qed.

Lemma is_rank0_VInt (g n : Z) : is_rank0 (VInt g) (VInt n) = inr (rank0 g n).
Proof.
  unfold is_rank0, rank0.
  rewrite py_gt_int_VInt, !py_eq_int_VInt.
  destruct (n =? 1), (1 <? n); reflexivity.
Qed.

Lemma rank0_only_when (g n : Z) : rank0 g n = true -> n = 1 \/ g = 0.
Proof. unfold rank0. lia. Qed.

Lemma quiet_arg p (ww : WorkerWorld) (k : string) : quiet p (arg ww k).
Proof. unfold arg. destruct (global_args ww); reflexivity. Qed.

Ltac quiet_worker H :=
  repeat first
    [ apply quiet_arg
    | apply quiet_emit; first [reflexivity | apply H; reflexivity]
    | apply quiet_call; first [reflexivity | apply H; reflexivity]
    | quiet_step ].

Lemma epoch_body_quiet p ww gpu n su st epoch :
  (forall e, is_epoch_event e = true -> p e = false) ->
  quiet p (epoch_body ww gpu n su st epoch).
Proof. intros H. unfold epoch_body. quiet_worker H. Qed.

Lemma epoch_loop_quiet p ww gpu n su st epochs :
  (forall e, is_epoch_event e = true -> p e = false) ->
  quiet p (epoch_loop ww gpu n su st epochs).
Proof.
  intros H. revert st.
  induction epochs as [|epoch rest IH]; intros st; simpl.
  - apply quiet_ret.
  - apply quiet_bind; [apply epoch_body_quiet, H | intros; apply IH].
Qed.

Lemma run_training_quiet p ww gpu n ts tl vl m :
  (forall e, is_epoch_event e = true -> p e = false) ->
  (forall o, p (ESGD o) = false) ->
  (forall g, p (ECriterionCuda g) = false) ->
  p EWandbFinish = false ->
  (forall msg, p (ELoggerInfo msg) = false) ->
  quiet p (run_training ww gpu n ts tl vl m).
Proof.
  intros He Hs Hc Hf Hl. unfold run_training.
  repeat first
    [ apply quiet_arg
    | apply epoch_loop_quiet, He
    | apply quiet_emit; first [apply Hs | apply Hc | exact Hf | apply Hl]
    | apply quiet_call; first [apply Hs | apply Hc]
    | quiet_step ].
Qed.

Lemma main_worker_filter (p : event -> bool) ww gpu n :
  filter p (trace (main_worker_body ww gpu n))
  = filter p (trace (start_worker ww gpu n))
    ++ match outcome (start_worker ww gpu n) with
       | inl _ => []
       | inr _ =>
           filter p (trace (build_loaders ww n))
           ++ match outcome (build_loaders ww n) with
              | inl _ => []
              | inr l =>
                  filter p (trace (build_model ww gpu n))
                  ++ match outcome (build_model ww gpu n) with
                     | inl _ => []
                     | inr m =>
                         filter p (trace (run_training ww gpu n
                                            (fst (fst l)) (snd (fst l)) (snd l) m))
                     end
              end
       end.
Proof.
  unfold main_worker_body.
  rewrite filter_trace_bind.
  destruct (outcome (start_worker ww gpu n)); [reflexivity|].
  rewrite filter_trace_bind.
  destruct (outcome (build_loaders ww n)); [reflexivity|].
  rewrite filter_trace_bind. reflexivity.
Qed.

Lemma build_loaders_quiet p ww n :
  (forall ds, p (EImageFolder ds) = false) ->
  (forall ds b, p (EDistributedSampler ds b) = false) ->
  (forall ld, p (EDataLoader ld) = false) ->
  quiet p (build_loaders ww n).
Proof.
  intros Hi Hs Hl. unfold build_loaders.
  repeat first
    [ apply quiet_arg
    | apply quiet_emit; first [apply Hi | apply Hs | apply Hl]
    | apply quiet_call; first [apply Hi | apply Hl]
    | quiet_step ].
Qed.

Lemma build_model_quiet p ww gpu n :
  (forall c k, p (EModel c k) = false) ->
  (forall msg, p (ELoggerInfo msg) = false) ->
  (forall m, p (EWandbWatch m) = false) ->
  (forall e, is_move_or_wrap e = true -> p e = false) ->
  quiet p (build_model ww gpu n).
Proof.
  intros Hm Hl Hw Hd. unfold build_model.
  repeat first
    [ apply quiet_arg
    | apply quiet_emit;
      first [apply Hm | apply Hl | apply Hw | apply Hd; reflexivity]
    | quiet_step ].
Qed.

Lemma start_worker_int ww (g n : Z) :
  start_worker ww (VInt g) (VInt n)
  = ((if rank0 g n then [EGetLogger "train"; ESetLevelInfo] else [])
     ++ (if 1 <? n then
           [EInitProcessGroup (if nccl_available ww then "nccl" else "gloo")
              "tcp://127.0.0.1:3333" (VInt n) (VInt g)]
         else []),
     inr tt).
Proof.
  unfold start_worker. rewrite is_rank0_VInt, py_gt_int_VInt.
  destruct (rank0 g n), (1 <? n); reflexivity.
Qed.

(** C7: a worker called with spawn index [g] and [ngpus_per_node = n]
    creates exactly one process group when [n > 1], with backend ["nccl"]
    when NCCL is available and ["gloo"] otherwise, the init method
    [tcp://127.0.0.1:3333], [world_size = n] and [rank = g]; when [n] is [1]
    (or less) it creates none. *)
Theorem process_group_iff_several_gpus (ww : WorkerWorld) (g n : Z) :
  filter is_init_process_group (trace (main_worker_body ww (VInt g) (VInt n)))
  = if 1 <? n then
      [EInitProcessGroup (if nccl_available ww then "nccl" else "gloo")
         "tcp://127.0.0.1:3333" (VInt n) (VInt g)]
    else [].
Proof.
  rewrite main_worker_filter, start_worker_int.
  cbn [trace outcome fst snd].
  rewrite (build_loaders_quiet is_init_process_group) by reflexivity.
  rewrite (build_model_quiet is_init_process_group)
    by (reflexivity || (intros []; simpl; congruence)).
  assert (Hrest : match outcome (build_loaders ww (VInt n)) with
                  | inl _ => []
                  | inr l =>
                      [] ++ match outcome (build_model ww (VInt g) (VInt n)) with
                            | inl _ => []
                            | inr m =>
                                filter is_init_process_group
                                  (trace (run_training ww (VInt g) (VInt n)
                                            (fst (fst l)) (snd (fst l)) (snd l) m))
                            end
                  end = []).
  { destruct (outcome (build_loaders ww (VInt n))); [reflexivity|].
    destruct (outcome (build_model ww (VInt g) (VInt n))); [reflexivity|].
    apply run_training_quiet; try reflexivity; intros []; simpl; congruence. }
  cbn [app] in *. rewrite Hrest, app_nil_r, filter_app.
  destruct (rank0 g n), (1 <? n); reflexivity.
Qed.

(** Runs [build_loaders] over the possible results of its reads and of its
    calls. *)
Ltac exec_loaders a n :=
  repeat (cbn [bind lift ret emit raise call trace outcome fst snd app filter];
          match goal with
          | |- context [call (call_raises ?ww ?e) _] =>
              destruct (call_raises ww e) eqn:?
          | |- context [match call_raises ?ww ?e with _ => _ end] =>
              destruct (call_raises ww e) eqn:?
          | |- context [lift (subscript a ?k)] =>
              destruct (subscript a k) eqn:?
          | |- context [lift (str_add_right ?v _)] =>
              destruct v; cbn [str_add_right]
          | |- context [if 1 <? n then _ else _] =>
              destruct (1 <? n) eqn:?
          end).

Lemma build_loaders_events ww (n : Z) ld :
  In (EDataLoader ld) (trace (build_loaders ww (VInt n))) ->
  exists args src img bs nw,
    global_args ww = Some args
    /\ subscript args "srcDir" = inr (VStr src)
    /\ subscript args "img_size" = inr img
    /\ subscript args "batch_size" = inr bs
    /\ subscript args "num_workers" = inr nw
    /\ let transforms := [Resize img img; ToTensor] in
       let train_set := ImageFolder (src ++ "train") transforms in
       let val_set := ImageFolder (src ++ "val") transforms in
       (ld = DataLoader train_set bs nw false true
               (if 1 <? n then Some (DistributedSampler train_set true) else None)
        \/ ld = DataLoader val_set bs nw false true None).
Proof.
  unfold build_loaders, arg. rewrite py_gt_int_VInt.
  destruct (global_args ww) as [a|]; [|intros []].
  exec_loaders a n.
  all: intros Hin;
    repeat (destruct Hin as [Hin|Hin]; try discriminate Hin);
    try solve [destruct Hin].
  all: injection Hin as <-.
  all: eexists a, _, _, _, _; cbv zeta;
    repeat (split; [eassumption || reflexivity|]); auto.
Qed.

(** The loaders phase when its reads succeed and the calls before the last
    one return. *)
Lemma build_loaders_run ww (n : Z) args src img bs nw :
  global_args ww = Some args ->
  subscript args "srcDir" = inr (VStr src) ->
  subscript args "img_size" = inr img ->
  subscript args "batch_size" = inr bs ->
  subscript args "num_workers" = inr nw ->
  let transforms := [Resize img img; ToTensor] in
  let ts := ImageFolder (src ++ "train") transforms in
  let vs := ImageFolder (src ++ "val") transforms in
  let tl := DataLoader ts bs nw false true
              (if 1 <? n then Some (DistributedSampler ts true) else None) in
  let vl := DataLoader vs bs nw false true None in
  call_raises ww (EImageFolder ts) = None ->
  call_raises ww (EDataLoader tl) = None ->
  call_raises ww (EImageFolder vs) = None ->
  build_loaders ww (VInt n)
  = (EImageFolder ts
       :: (if 1 <? n then [EDistributedSampler ts true] else [])
       ++ [EDataLoader tl; EImageFolder vs; EDataLoader vl],
     match call_raises ww (EDataLoader vl) with
     | Some x => inl x
     | None => inr (ts, tl, vl)
     end).
Proof.
  intros Ha Hsrc Himg Hbs Hnw transforms ts vs tl vl H1 H2 H3.
  unfold tl in H2. subst transforms ts vs tl vl.
  unfold build_loaders, arg. rewrite Ha, py_gt_int_VInt, Himg, Hsrc, Hbs, Hnw.
  cbn [bind lift ret emit raise trace outcome fst snd app str_add_right].
  rewrite H1.
  destruct (1 <? n);
    cbn [bind lift ret emit raise call trace outcome fst snd app];
    rewrite H2;
    cbn [bind lift ret emit raise call trace outcome fst snd app];
    rewrite H3;
    cbn [bind lift ret emit raise call trace outcome fst snd app];
    match goal with
    | |- context [match call_raises ww ?e with _ => _ end] =>
        destruct (call_raises ww e)
    end; reflexivity.
Qed.

Lemma main_worker_loader_events ww (g n : Z) :
  filter is_data_loader (trace (main_worker_body ww (VInt g) (VInt n)))
  = filter is_data_loader (trace (build_loaders ww (VInt n))).
Proof.
  rewrite main_worker_filter, start_worker_int.
  cbn [trace outcome fst snd].
  rewrite (build_model_quiet is_data_loader)
    by (reflexivity || (intros []; simpl; congruence)).
  assert (Hstart : forall l1 l2 : list event,
             filter is_data_loader
               ((if rank0 g n then [EGetLogger "train"; ESetLevelInfo] else [])
                ++ (if 1 <? n then l1 else l2))
             = filter is_data_loader (if 1 <? n then l1 else l2))
    by (intros; destruct (rank0 g n); reflexivity).
  rewrite Hstart. destruct (1 <? n); cbn [filter is_data_loader app];
    (destruct (outcome (build_loaders ww (VInt n))) as [e|l];
     [rewrite app_nil_r; reflexivity|]);
    (destruct (outcome (build_model ww (VInt g) (VInt n))) as [e|m];
     [rewrite app_nil_r; reflexivity|]);
    rewrite (run_training_quiet is_data_loader), app_nil_r;
    try reflexivity; intros []; simpl; congruence.
Qed.

Section AlwaysFacts.
Context {E : Type} (P : E -> Prop).

Lemma always_ret {A} (a : A) : always P (ret a).
Proof. intros e []. Qed.

Lemma always_raise {A} x : always P (@raise E A x).
Proof. intros e []. Qed.

Lemma always_lift {A} (r : exn + A) : always P (lift r).
Proof. intros e []. Qed.

Lemma always_emit ev : P ev -> always P (emit ev).
Proof. intros H e [<- | []]. exact H. Qed.

Lemma always_bind {A B} (m : run E A) (k : A -> run E B) :
  always P m ->
  (forall a, outcome m = inr a -> always P (k a)) ->
  always P (bind m k).
Proof.
  intros Hm Hk e. rewrite trace_bind, in_app_iff.
  intros [Hin | Hin]; [apply Hm, Hin|].
  destruct (outcome m) as [x | a]; [destruct Hin|].
  apply (Hk a eq_refl), Hin.
Qed.

End AlwaysFacts.

Lemma always_call (P : event -> Prop) (r : option exn) (ev : event) :
  P ev -> always P (call r ev).
Proof. intros H e. rewrite trace_call. intros [<- | []]. exact H. Qed.

Lemma always_arg (P : event -> Prop) ww k : always P (arg ww k).
Proof. unfold arg. destruct (global_args ww); intros e []. Qed.

Lemma trace_arg ww k : trace (arg ww k) = [].
Proof. unfold arg. destruct (global_args ww); reflexivity. Qed.

Ltac always_step :=
  match goal with
  | |- always _ (bind _ _) => apply always_bind; [|intros]
  | |- always _ (ret _) => apply always_ret
  | |- always _ (raise _) => apply always_raise
  | |- always _ (lift _) => apply always_lift
  | |- always _ (arg _ _) => apply always_arg
  | |- always _ (if ?c then _ else _) => destruct c
  | |- always _ (let _ := _ in _) => cbv zeta
  end.

Lemma epoch_body_uses ww gpu n su st epoch :
  always (uses (the_model su)) (epoch_body ww gpu n su st epoch).
Proof.
  unfold epoch_body.
  repeat first
    [ apply always_emit; intros m' [= <-]; reflexivity
    | apply always_emit; intros m'; discriminate
    | always_step ].
Qed.

Lemma epoch_loop_uses ww gpu n su st epochs :
  always (uses (the_model su)) (epoch_loop ww gpu n su st epochs).
Proof.
  revert st. induction epochs as [|epoch rest IH]; intros st; simpl.
  - apply always_ret.
  - apply always_bind; [apply epoch_body_uses | intros; apply IH].
Qed.

Lemma run_training_uses ww gpu n ts tl vl m :
  always (uses m) (run_training ww gpu n ts tl vl m).
Proof.
  unfold run_training.
  repeat first
    [ apply (epoch_loop_uses ww gpu n
               {| train_set := ts; train_loader := tl; val_loader := vl;
                  the_model := m; the_optimizer := _; the_criterion := _ |})
    | apply always_emit; intros m' [= <-]; reflexivity
    | apply always_emit; intros m'; discriminate
    | apply always_call; intros m' [= <-]; reflexivity
    | apply always_call; intros m'; discriminate
    | always_step ].
Qed.

Ltac fed :=
  repeat first
    [ apply always_emit; cbn [feeds]; first [exact I | reflexivity]
    | apply always_call; exact I
    | always_step ].

Lemma epoch_loop_feeds ww gpu n su st epochs :
  always (feeds (train_loader su) (val_loader su))
    (epoch_loop ww gpu n su st epochs).
Proof.
  revert st. induction epochs as [|epoch rest IH]; intros st; simpl.
  - apply always_ret.
  - apply always_bind; [unfold epoch_body; fed | intros; apply IH].
Qed.

Lemma run_training_feeds ww gpu n ts tl vl m :
  always (feeds tl vl) (run_training ww gpu n ts tl vl m).
Proof.
  unfold run_training.
  repeat first
    [ apply (epoch_loop_feeds ww gpu n
               {| train_set := ts; train_loader := tl; val_loader := vl;
                  the_model := m; the_optimizer := _; the_criterion := _ |})
    | apply always_emit; exact I
    | apply always_call; exact I
    | always_step ].
Qed.

(** C8: every [DataLoader] that [main_worker] builds gets the
    configuration's [batch_size] and [num_workers], [shuffle=False] and
    [drop_last=True].  It is either the loader of the training set, whose
    sampler is [DistributedSampler(train_set, shuffle=True)] when
    [ngpus_per_node > 1] and [None] otherwise, or the loader of the
    validation set, which has no sampler.  And both are built: when the
    configuration has [srcDir] (a [str]), [img_size], [batch_size] and
    [num_workers] and the three calls before the second [DataLoader]
    return, the worker calls [DataLoader] exactly twice, first for that
    training loader and then for that validation loader, the one without a
    sampler; every [train] is then given the first and every [val] the
    second. *)
Theorem loaders_as_configured (ww : WorkerWorld) (g n : Z) :
  let run := main_worker_body ww (VInt g) (VInt n) in
  (forall ld, In (EDataLoader ld) (trace run) ->
     exists args src img,
       global_args ww = Some args
       /\ subscript args "srcDir" = inr (VStr src)
       /\ subscript args "img_size" = inr img
       /\ subscript args "batch_size" = inr (ld_batch_size ld)
       /\ subscript args "num_workers" = inr (ld_num_workers ld)
       /\ ld_shuffle ld = false
       /\ ld_drop_last ld = true
       /\ let train_set := ImageFolder (src ++ "train") [Resize img img; ToTensor] in
          let val_set := ImageFolder (src ++ "val") [Resize img img; ToTensor] in
          (ld_dataset ld = train_set
           /\ (1 < n -> ld_sampler ld = Some (DistributedSampler train_set true))
           /\ (n <= 1 -> ld_sampler ld = None))
          \/ (ld_dataset ld = val_set /\ ld_sampler ld = None))
  /\ (forall args src img bs nw,
        global_args ww = Some args ->
        subscript args "srcDir" = inr (VStr src) ->
        subscript args "img_size" = inr img ->
        subscript args "batch_size" = inr bs ->
        subscript args "num_workers" = inr nw ->
        let transforms := [Resize img img; ToTensor] in
        let train_set := ImageFolder (src ++ "train") transforms in
        let val_set := ImageFolder (src ++ "val") transforms in
        let train_loader :=
          DataLoader train_set bs nw false true
            (if 1 <? n then Some (DistributedSampler train_set true) else None) in
        let val_loader := DataLoader val_set bs nw false true None in
        call_raises ww (EImageFolder train_set) = None ->
        call_raises ww (EDataLoader train_loader) = None ->
        call_raises ww (EImageFolder val_set) = None ->
        filter is_data_loader (trace run)
        = [EDataLoader train_loader; EDataLoader val_loader]
        /\ forall e, In e (trace run) -> feeds train_loader val_loader e).
Proof.
  intros run. split.
  - intros ld Hin.
    assert (Hf : In (EDataLoader ld) (filter is_data_loader (trace run)))
      by (apply filter_In; split; [exact Hin | reflexivity]).
    unfold run in Hf. rewrite main_worker_loader_events in Hf.
    apply filter_In in Hf. destruct Hf as [Hb _].
    apply build_loaders_events in Hb.
    destruct Hb as (args & src & img & bs & nw & Ha & Hsrc & Himg & Hbs & Hnw & Hld).
    exists args, src, img. cbv zeta in *.
    destruct Hld as [-> | ->]; cbn [ld_batch_size ld_num_workers ld_shuffle
                                     ld_drop_last ld_dataset ld_sampler];
      repeat (split; [assumption || reflexivity|]).
    + left. split; [reflexivity|].
      destruct (Z.ltb_spec 1 n); split; intros; (reflexivity || lia).
    + right. split; reflexivity.
  - intros args src img bs nw Ha Hsrc Himg Hbs Hnw
           transforms ts vs tl vl H1 H2 H3.
    pose proof (build_loaders_run ww n args src img bs nw
                  Ha Hsrc Himg Hbs Hnw H1 H2 H3) as Hrun.
    cbv zeta in Hrun. fold transforms ts vs tl vl in Hrun.
    split.
    + unfold run. rewrite main_worker_loader_events, Hrun.
      cbn [trace fst]. destruct (1 <? n); reflexivity.
    + change (always (feeds tl vl) run).
      unfold run, main_worker_body.
      apply always_bind; [unfold start_worker; fed | intros _ _].
      apply always_bind; [unfold build_loaders; fed | intros l Hl].
      rewrite Hrun in Hl. cbn [outcome snd] in Hl.
      destruct (call_raises ww (EDataLoader vl)); [discriminate Hl|].
      injection Hl as <-. cbn [fst snd].
      apply always_bind; [unfold build_model; fed | intros m _].
      apply run_training_feeds.
Qed.

Lemma loaders_as_configured_witness :
  let train_set := ImageFolder "data/train" [Resize (VInt 224) (VInt 224); ToTensor] in
  let val_set := ImageFolder "data/val" [Resize (VInt 224) (VInt 224); ToTensor] in
  filter is_data_loader (trace (main_worker_body Sample.worker (VInt 1) (VInt 2)))
  = [EDataLoader (DataLoader train_set (VInt 32) (VInt 4) false true
                    (Some (DistributedSampler train_set true)));
     EDataLoader (DataLoader val_set (VInt 32) (VInt 4) false true None)].
Proof.
  intros train_set val_set.
  apply (proj2 (loaders_as_configured Sample.worker 1 2)
           Sample.config "data/" (VInt 224) (VInt 32) (VInt 4));
    reflexivity.
Defined.

Lemma build_model_int ww (g n : Z) :
  build_model ww (VInt g) (VInt n)
  = match outcome (arg ww "model") with
    | inl x => ([], inl x)
    | inr cfg =>
        let m := Model cfg (num_train_classes ww) in
        ([EModel cfg (num_train_classes ww)]
         ++ (if rank0 g n then
               [ELoggerInfo (LogStr "Data Ready!"); ELoggerInfo (LogModel m);
                EWandbWatch m]
             else [])
         ++ (if 1 <? n then
               [EModelTo m (VInt g); EDDP (ModelTo m (VInt g)) [VInt g] (VInt g) true]
             else []),
         inr (if 1 <? n then DDP (ModelTo m (VInt g)) [VInt g] (VInt g) true
              else m))
    end.
Proof.
  unfold build_model, arg. rewrite is_rank0_VInt, py_gt_int_VInt.
  destruct (global_args ww) as [a|]; [|reflexivity].
  run_simpl. destruct (subscript a "model") as [x|cfg]; [reflexivity|].
  destruct (rank0 g n), (1 <? n); reflexivity.
Qed.

Lemma start_worker_quiet p ww (g n : Z) :
  p (EGetLogger "train") = false -> p ESetLevelInfo = false ->
  (forall b i ws r, p (EInitProcessGroup b i ws r) = false) ->
  quiet p (start_worker ww (VInt g) (VInt n)).
Proof.
  intros H1 H2 H3. rewrite start_worker_int. unfold quiet.
  cbn [trace fst]. rewrite filter_app.
  destruct (rank0 g n), (1 <? n); simpl; rewrite ?H1, ?H2, ?H3; reflexivity.
Qed.

Lemma start_worker_outcome ww (g n : Z) :
  outcome (start_worker ww (VInt g) (VInt n)) = inr tt.
Proof. rewrite start_worker_int. reflexivity. Qed.

Lemma model_built ww (g n : Z) cfg nc :
  In (EModel cfg nc) (trace (main_worker_body ww (VInt g) (VInt n))) ->
  (exists l, outcome (build_loaders ww (VInt n)) = inr l)
  /\ outcome (arg ww "model") = inr cfg
  /\ nc = num_train_classes ww.
Proof.
  intros Hin.
  assert (Hf : In (EModel cfg nc)
                 (filter is_model_built
                    (trace (main_worker_body ww (VInt g) (VInt n)))))
    by (apply filter_In; split; [exact Hin | reflexivity]).
  rewrite main_worker_filter in Hf.
  rewrite (start_worker_quiet is_model_built) in Hf by reflexivity.
  rewrite (build_loaders_quiet is_model_built) in Hf by reflexivity.
  rewrite start_worker_outcome in Hf. cbn [app] in Hf.
  destruct (outcome (build_loaders ww (VInt n))) as [x|l]; [destruct Hf|].
  split; [exists l; reflexivity|].
  apply in_app_or in Hf. destruct Hf as [Hf | Hf].
  - apply filter_In in Hf. destruct Hf as [Hf _].
    rewrite build_model_int in Hf.
    destruct (outcome (arg ww "model")) as [x|cfg']; [destruct Hf|].
    cbv zeta in Hf. cbn [trace fst app] in Hf.
    destruct Hf as [Hf | Hf]; [injection Hf as <- <-; auto|].
    apply in_app_or in Hf.
    destruct (rank0 g n), (1 <? n); simpl in Hf;
      repeat (destruct Hf as [Hf | Hf]; try discriminate Hf);
      destruct Hf.
  - destruct (outcome (build_model ww (VInt g) (VInt n))) as [x|m];
      [destruct Hf|].
    rewrite (run_training_quiet is_model_built) in Hf;
      [destruct Hf | | | | |]; try reflexivity; intros []; simpl; congruence.
Qed.

(** C5: in a worker that gets as far as building the model, the model is
    moved to the worker's GPU and wrapped in [DistributedDataParallel]
    exactly when [ngpus_per_node > 1]; the optimizer, [train], [val] and
    [save_checkpoint] then work on the wrapped model.  Otherwise (with
    [ngpus_per_node = 1] in particular) there is no [.to(gpu)] and no
    [DDP(...)] at all and they work on the model as [Model(...)] built
    it. *)
Theorem model_wrapped_iff_several_gpus (ww : WorkerWorld) (g n : Z) cfg nc :
  In (EModel cfg nc) (trace (main_worker_body ww (VInt g) (VInt n))) ->
  let tr := trace (main_worker_body ww (VInt g) (VInt n)) in
  let base := Model cfg nc in
  let wrapped := DDP (ModelTo base (VInt g)) [VInt g] (VInt g) true in
  (1 < n <->
   In (EModelTo base (VInt g)) tr
   /\ In (EDDP (ModelTo base (VInt g)) [VInt g] (VInt g) true) tr)
  /\ filter is_move_or_wrap tr
     = (if 1 <? n then
          [EModelTo base (VInt g);
           EDDP (ModelTo base (VInt g)) [VInt g] (VInt g) true]
        else [])
  /\ (forall e m, In e tr -> model_used e = Some m ->
        m = if 1 <? n then wrapped else base).
Proof.
  intros Hin tr base wrapped.
  destruct (model_built _ _ _ _ _ Hin) as ((l & Hl) & Hcfg & ->).
  assert (Hfilter : filter is_move_or_wrap tr
                    = if 1 <? n then
                        [EModelTo base (VInt g);
                         EDDP (ModelTo base (VInt g)) [VInt g] (VInt g) true]
                      else []).
  { unfold tr. rewrite main_worker_filter.
    rewrite (start_worker_quiet is_move_or_wrap) by reflexivity.
    rewrite (build_loaders_quiet is_move_or_wrap) by reflexivity.
    rewrite start_worker_outcome, Hl. cbn [app].
    rewrite build_model_int, Hcfg. cbv zeta. cbn [trace outcome fst snd].
    rewrite (run_training_quiet is_move_or_wrap), app_nil_r;
      try reflexivity; try (intros []; simpl; congruence).
    cbn [app filter is_move_or_wrap]. rewrite filter_app.
    destruct (rank0 g n), (1 <? n); reflexivity. }
  split; [|split].
  - split.
    + intros Hn.
      assert (Hb : (1 <? n) = true) by lia.
      rewrite Hb in Hfilter.
      assert (H1 : In (EModelTo base (VInt g)) (filter is_move_or_wrap tr))
        by (rewrite Hfilter; left; reflexivity).
      assert (H2 : In (EDDP (ModelTo base (VInt g)) [VInt g] (VInt g) true)
                     (filter is_move_or_wrap tr))
        by (rewrite Hfilter; right; left; reflexivity).
      apply filter_In in H1, H2. split; [apply H1 | apply H2].
    + intros [H1 _].
      assert (Hf : In (EModelTo base (VInt g)) (filter is_move_or_wrap tr))
        by (apply filter_In; split; [exact H1 | reflexivity]).
      rewrite Hfilter in Hf.
      destruct (Z.ltb_spec 1 n); [assumption | destruct Hf].
  - exact Hfilter.
  - assert (Hall : always (uses (if 1 <? n then wrapped else base))
                     (main_worker_body ww (VInt g) (VInt n))).
    { unfold main_worker_body.
      apply always_bind; [|intros _ _].
      { rewrite start_worker_int. intros e He. cbn [trace fst] in He.
        intros m' Hm'. apply in_app_or in He.
        destruct (rank0 g n), (1 <? n); simpl in He;
          repeat (destruct He as [He | He]; try (subst e; discriminate Hm'));
          destruct He. }
      apply always_bind; [|intros l' _].
      { unfold build_loaders.
        repeat first
          [ apply always_emit; intros m'; discriminate
          | apply always_call; intros m'; discriminate
          | always_step ]. }
      apply always_bind.
      { rewrite build_model_int, Hcfg. cbv zeta. intros e He.
        cbn [trace fst app] in He. intros m' Hm'.
        destruct He as [He | He]; [subst e; discriminate Hm'|].
        apply in_app_or in He.
        destruct (rank0 g n), (1 <? n); simpl in He;
          repeat (destruct He as [He | He]; try (subst e; discriminate Hm'));
          destruct He. }
      intros m Hm. rewrite build_model_int, Hcfg in Hm.
      cbv zeta in Hm. cbn [outcome snd] in Hm. injection Hm as <-.
      apply run_training_uses. }
    intros e m He Hm. exact (Hall e He m Hm).
Qed.

Lemma model_wrapped_iff_several_gpus_witness :
  filter is_move_or_wrap (trace (main_worker_body Sample.worker (VInt 1) (VInt 2)))
  = [EModelTo (Model (VStr "resnet") 10) (VInt 1);
     EDDP (ModelTo (Model (VStr "resnet") 10) (VInt 1)) [VInt 1] (VInt 1) true].
Proof.
  apply (model_wrapped_iff_several_gpus Sample.worker 1 2 (VStr "resnet") 10%nat).
  vm_compute. do 6 right. left. reflexivity.
Defined.

Lemma epoch_body_result ww gpu n su st epoch st' :
  outcome (epoch_body ww gpu n su st epoch) = inr st' ->
  exists val_loss val_acc bl ba,
    dict_subscript (epoch_metrics ww epoch) "val_loss" = inr val_loss
    /\ dict_subscript (epoch_metrics ww epoch) "val_acc" = inr val_acc
    /\ py_lt_int val_loss (best_val_loss st) = inr bl
    /\ py_gt_int val_acc (best_val_acc st) = inr ba
    /\ st' = {| best_val_loss := best_val_loss st;
                best_val_acc := best_val_acc st;
                is_best_loss := Some bl;
                is_best_acc := Some ba;
                metrics_summary := Some (epoch_metrics ww epoch) |}
    /\ (forall m ep va ib ck,
          In (ESaveCheckpoint m ep va ib ck)
             (trace (epoch_body ww gpu n su st epoch)) ->
          ib = bl /\ ep = epoch + 1 /\ va = val_acc).
Proof.
  unfold epoch_body, arg.
  destruct (global_args ww) as [a|]; run_simpl; [|discriminate].
  destruct (subscript a "epochs") as [x|epochs]; run_simpl; [discriminate|].
  destruct (dict_subscript (epoch_metrics ww epoch) "val_loss")
    as [x|val_loss]; run_simpl; [discriminate|].
  destruct (py_lt_int val_loss (best_val_loss st)) as [x|bl] eqn:Hbl;
    run_simpl; [discriminate|].
  destruct (dict_subscript (epoch_metrics ww epoch) "val_acc")
    as [x|val_acc]; run_simpl; [discriminate|].
  destruct (py_gt_int val_acc (best_val_acc st)) as [x|ba] eqn:Hba;
    run_simpl; [discriminate|].
  destruct (is_rank0 gpu n) as [x|[|]]; run_simpl; [discriminate| |].
  - destruct (subscript a "saveDir") as [x|save_dir]; run_simpl; [discriminate|].
    destruct (dict_subscript (epoch_metrics ww epoch) "acc")
      as [x|acc]; run_simpl; [discriminate|].
    destruct (dict_subscript (epoch_metrics ww epoch) "loss")
      as [x|loss]; run_simpl; [discriminate|].
    intros [= Hst]; subst st'. exists val_loss, val_acc, bl, ba.
    repeat (split; [reflexivity || assumption|]).
    intros m ep va ib ck Hin.
    repeat (destruct Hin as [Hin|Hin]; try discriminate Hin);
      [injection Hin as <- <- <- <- <-; auto | destruct Hin].
  - intros [= Hst]; subst st'. exists val_loss, val_acc, bl, ba.
    repeat (split; [reflexivity || assumption|]).
    intros m ep va ib ck Hin.
    repeat (destruct Hin as [Hin|Hin]; try discriminate Hin); destruct Hin.
Qed.

Lemma epoch_loop_bests ww gpu n su st epochs st' :
  outcome (epoch_loop ww gpu n su st epochs) = inr st' ->
  best_val_loss st' = best_val_loss st /\ best_val_acc st' = best_val_acc st.
Proof.
  revert st. induction epochs as [|epoch rest IH]; intros st; simpl.
  - intros [= <-]. auto.
  - rewrite outcome_bind.
    destruct (outcome (epoch_body ww gpu n su st epoch)) as [x|st1] eqn:Hbody;
      [discriminate|].
    intros Hrest. apply IH in Hrest.
    apply epoch_body_result in Hbody.
    destruct Hbody as (vl & va & bl & ba & _ & _ & _ & _ & -> & _).
    exact Hrest.
Qed.

(** The loop over [done ++ epoch :: rest] runs [epoch] from the state the
    iterations of [done] leave. *)
Lemma epoch_loop_app ww gpu n su st done rest :
  outcome (epoch_loop ww gpu n su st (done ++ rest))
  = match outcome (epoch_loop ww gpu n su st done) with
    | inl x => inl x
    | inr st1 => outcome (epoch_loop ww gpu n su st1 rest)
    end.
Proof.
  revert st. induction done as [|epoch done IH]; intros st; simpl.
  - reflexivity.
  - rewrite !outcome_bind.
    destruct (outcome (epoch_body ww gpu n su st epoch)); [reflexivity|].
    apply IH.
Qed.

(** C9: [best_val_loss] and [best_val_acc] start at [0] and no iteration of
    the loop changes them.  So whatever epochs [done] came before, the
    iteration of [epoch] sets [is_best_loss] to [val_loss < 0] and
    [is_best_acc] to [val_acc > 0] for that epoch's own [val_loss] and
    [val_acc], and [is_best_loss] is the [is_best] that [save_checkpoint]
    receives. *)
Theorem best_flags_compare_with_zero ww gpu n su done epoch st st' :
  outcome (epoch_loop ww gpu n su initial_locals done) = inr st ->
  outcome (epoch_body ww gpu n su st epoch) = inr st' ->
  (best_val_loss initial_locals = 0 /\ best_val_acc initial_locals = 0)
  /\ (best_val_loss st = 0 /\ best_val_acc st = 0)
  /\ (best_val_loss st' = 0 /\ best_val_acc st' = 0)
  /\ exists val_loss val_acc bl ba,
       dict_subscript (epoch_metrics ww epoch) "val_loss" = inr val_loss
       /\ dict_subscript (epoch_metrics ww epoch) "val_acc" = inr val_acc
       /\ py_lt_int val_loss 0 = inr bl
       /\ py_gt_int val_acc 0 = inr ba
       /\ is_best_loss st' = Some bl
       /\ is_best_acc st' = Some ba
       /\ (forall m ep va ib ck,
             In (ESaveCheckpoint m ep va ib ck)
                (trace (epoch_body ww gpu n su st epoch)) ->
             ib = bl).
Proof.
  intros Hdone Hbody.
  apply epoch_loop_bests in Hdone. cbn [initial_locals best_val_loss best_val_acc] in Hdone.
  destruct Hdone as [Hl Ha].
  apply epoch_body_result in Hbody.
  destruct Hbody as (vl & va & bl & ba & Hvl & Hva & Hbl & Hba & -> & Hsave).
  rewrite Hl in Hbl. rewrite Ha in Hba.
  cbn [best_val_loss best_val_acc is_best_loss is_best_acc].
  split; [split; reflexivity|].
  split; [split; assumption|].
  split; [split; assumption|].
  exists vl, va, bl, ba.
  repeat (split; [reflexivity || assumption|]).
  intros m ep v ib ck Hin. apply (Hsave m ep v ib ck Hin).
Qed.

Lemma best_flags_compare_with_zero_witness :
  best_val_loss (Sample.after_epoch 1) = 0
  /\ best_val_acc (Sample.after_epoch 1) = 0.
Proof.
  apply (best_flags_compare_with_zero Sample.worker (VInt 0) (VInt 1)
           Sample.built [0] 1 (Sample.after_epoch 0) (Sample.after_epoch 1));
    vm_compute; reflexivity.
Defined.

Lemma has_metric_subscript ww epoch k :
  has_metric ww epoch k = true ->
  dict_subscript (epoch_metrics ww epoch) k = inr (metric ww epoch k).
Proof.
  unfold has_metric, metric, dict_subscript, subscript.
  destruct (dict_get k (epoch_metrics ww epoch)); [reflexivity | discriminate].
Qed.

Lemma compare_with_number (v : pyval) (z : Z) :
  is_number v = true -> exists c, compare_with_int v z = inr c.
Proof. destruct v; try discriminate; intros _; eexists; reflexivity. Qed.

Lemma is_number_lt (v : pyval) :
  is_number v = true -> py_lt_int v 0 = inr (below_zero v).
Proof.
  intros Hv. destruct (compare_with_number v 0 Hv) as [c Hc].
  unfold below_zero, py_lt_int. rewrite Hc.
  destruct c as [[]|]; reflexivity.
Qed.

Lemma is_number_gt (v : pyval) (z : Z) :
  is_number v = true -> exists b, py_gt_int v z = inr b.
Proof.
  intros Hv. destruct (compare_with_number v z Hv) as [c Hc].
  unfold py_gt_int. rewrite Hc.
  destruct c as [[]|]; eexists; reflexivity.
Qed.

Lemma arg_bound ww a k : global_args ww = Some a -> arg ww k = lift (subscript a k).
Proof. unfold arg. intros ->. reflexivity. Qed.

Lemma epoch_body_ok ww (g n : Z) su st epoch a epochs save_dir :
  global_args ww = Some a ->
  subscript a "epochs" = inr epochs ->
  (rank0 g n = true -> subscript a "saveDir" = inr save_dir) ->
  best_val_loss st = 0 ->
  metrics_ok ww (rank0 g n) epoch = true ->
  trace (epoch_body ww (VInt g) (VInt n) su st epoch)
  = claimed_epoch ww g n su save_dir epochs epoch
  /\ exists st', outcome (epoch_body ww (VInt g) (VInt n) su st epoch) = inr st'.
Proof.
  intros Ha He Hsd Hbest Hok.
  unfold metrics_ok in Hok.
  apply andb_prop in Hok. destruct Hok as [Hok Hlog].
  apply andb_prop in Hok. destruct Hok as [Hok Hva_num].
  apply andb_prop in Hok. destruct Hok as [Hok Hva].
  apply andb_prop in Hok. destruct Hok as [Hvl Hvl_num].
  destruct (is_number_gt _ (best_val_acc st) Hva_num) as [ba Hba].
  unfold epoch_body, claimed_epoch.
  rewrite !(arg_bound _ _ _ Ha), He, is_rank0_VInt, Hbest.
  rewrite !(has_metric_subscript _ _ _ Hvl), !(has_metric_subscript _ _ _ Hva).
  run_simpl.
  rewrite (is_number_lt _ Hvl_num). run_simpl.
  rewrite Hba. run_simpl.
  destruct (rank0 g n).
  - rewrite (Hsd eq_refl).
    cbn [negb orb] in Hlog. apply andb_prop in Hlog. destruct Hlog as [Hacc Hloss].
    rewrite (has_metric_subscript _ _ _ Hacc), (has_metric_subscript _ _ _ Hloss).
    run_simpl. split; [reflexivity | eexists; reflexivity].
  - run_simpl. split; [reflexivity | eexists; reflexivity].
Qed.

Lemma epoch_loop_ok ww (g n : Z) su st es a epochs save_dir :
  global_args ww = Some a ->
  subscript a "epochs" = inr epochs ->
  (rank0 g n = true -> subscript a "saveDir" = inr save_dir) ->
  best_val_loss st = 0 ->
  (forall e, In e es -> metrics_ok ww (rank0 g n) e = true) ->
  trace (epoch_loop ww (VInt g) (VInt n) su st es)
  = flat_map (claimed_epoch ww g n su save_dir epochs) es
  /\ exists st', outcome (epoch_loop ww (VInt g) (VInt n) su st es) = inr st'.
Proof.
  intros Ha He Hsd. revert st.
  induction es as [|epoch rest IH]; intros st Hbest Hall.
  - split; [reflexivity | eexists; reflexivity].
  - destruct (epoch_body_ok ww g n su st epoch a epochs save_dir Ha He Hsd Hbest)
      as [Htr [st1 Hout]]; [apply Hall; left; reflexivity|].
    assert (Hbest1 : best_val_loss st1 = 0).
    { destruct (epoch_body_result _ _ _ _ _ _ _ Hout)
        as (vl & va & bl & ba & _ & _ & _ & _ & -> & _).
      exact Hbest. }
    destruct (IH st1 Hbest1) as [Htr' [st' Hout']];
      [intros e Hin; apply Hall; right; exact Hin|].
    cbn [epoch_loop flat_map].
    rewrite trace_bind, outcome_bind, Hout, Htr, Htr', Hout'.
    split; [reflexivity | eexists; reflexivity].
Qed.

Lemma run_training_ok ww (g n : Z) ts tl vl m a lr E save_dir :
  global_args ww = Some a ->
  subscript a "learning_rate" = inr lr ->
  subscript a "epochs" = inr (VInt E) ->
  (rank0 g n = true -> subscript a "saveDir" = inr save_dir) ->
  (forall e, In e (range_upto E) -> metrics_ok ww (rank0 g n) e = true) ->
  call_raises ww (ESGD (SGD m lr 0.9%float 1e-5%float)) = None ->
  call_raises ww (ECriterionCuda (VInt g)) = None ->
  let su := {| train_set := ts; train_loader := tl; val_loader := vl;
               the_model := m;
               the_optimizer := SGD m lr 0.9%float 1e-5%float;
               the_criterion := CrossEntropyLossCuda (VInt g) |} in
  filter is_epoch_event (trace (run_training ww (VInt g) (VInt n) ts tl vl m))
  = flat_map (claimed_epoch ww g n su save_dir (VInt E)) (range_upto E)
  /\ outcome (run_training ww (VInt g) (VInt n) ts tl vl m) = inr tt.
Proof.
  intros Ha Hlr He Hsd Hall Hsgd Hcrit su.
  destruct (epoch_loop_ok ww g n su initial_locals (range_upto E) a (VInt E)
              save_dir Ha He Hsd eq_refl Hall) as [Htr [st' Hout]].
  assert (Hep : forall e, In e (flat_map (claimed_epoch ww g n su save_dir (VInt E))
                                 (range_upto E)) -> is_epoch_event e = true).
  { intros e Hin. apply in_flat_map in Hin. destruct Hin as [epoch [_ Hin]].
    unfold claimed_epoch in Hin. apply in_app_or in Hin.
    destruct (rank0 g n); simpl in Hin;
      repeat (destruct Hin as [Hin | Hin]; try (subst e; reflexivity));
      destruct Hin. }
  unfold run_training.
  rewrite !(arg_bound _ _ _ Ha), Hlr, He, is_rank0_VInt.
  cbv zeta. fold su.
  repeat (progress (rewrite ?filter_trace_bind, ?outcome_bind, ?Hsgd, ?Hcrit,
                      ?trace_call, ?outcome_call, ?Hout;
                    cbn [lift emit trace outcome fst snd filter
                         is_epoch_event app py_range];
                    fold su)).
  rewrite Htr.
  assert (Hkeep : forall l : list event,
             (forall e, In e l -> is_epoch_event e = true) ->
             filter is_epoch_event l = l).
  { induction l as [|e l IHl]; intros Hl; [reflexivity|].
    cbn [filter]. rewrite (Hl e (or_introl eq_refl)).
    f_equal. apply IHl. intros e' He'. apply Hl. right; exact He'. }
  rewrite (Hkeep _ Hep).
  destruct (rank0 g n);
    repeat (progress (rewrite ?filter_trace_bind, ?outcome_bind;
                      cbn [lift emit ret trace outcome fst snd filter
                           is_epoch_event app]));
    rewrite ?app_nil_r; split; reflexivity.
Qed.

Lemma range_upto_nth (E : Z) (i : nat) :
  (i < Z.to_nat E)%nat -> nth i (range_upto E) 0 = Z.of_nat i.
Proof.
  intros Hi. unfold range_upto.
  change 0 with (Z.of_nat 0). rewrite map_nth, seq_nth by exact Hi.
  reflexivity.
Qed.

(** C2: with [E = args["epochs"]], a worker that has built its loaders and
    its model, whose configuration has the fields it reads, for which
    [optim.SGD(...)] accepts [args["learning_rate"]] and the criterion
    moves to the GPU, and to which [train] and [val] return the metrics it
    reads, runs to the end, and its
    calls to [train], [val], [save_checkpoint] and [wandb.log] are exactly
    those of the epochs [0, 1, ..., E-1] in this order: in each epoch
    [train] on the training loader, then [val] on the validation loader,
    then, for the worker with [rank0 g n] only, [save_checkpoint] and
    [wandb.log] of [epoch], [acc], [loss], [val_acc], [val_loss]; and
    [rank0 g n] holds only when [n = 1] or [g = 0]. *)
Theorem epochs_run_in_order ww (g n : Z) a E l m lr save_dir :
  global_args ww = Some a ->
  outcome (build_loaders ww (VInt n)) = inr l ->
  outcome (build_model ww (VInt g) (VInt n)) = inr m ->
  subscript a "learning_rate" = inr lr ->
  subscript a "epochs" = inr (VInt E) ->
  (rank0 g n = true -> subscript a "saveDir" = inr save_dir) ->
  (forall e, In e (range_upto E) -> metrics_ok ww (rank0 g n) e = true) ->
  call_raises ww (ESGD (SGD m lr 0.9%float 1e-5%float)) = None ->
  call_raises ww (ECriterionCuda (VInt g)) = None ->
  let su := {| train_set := fst (fst l); train_loader := snd (fst l);
               val_loader := snd l; the_model := m;
               the_optimizer := SGD m lr 0.9%float 1e-5%float;
               the_criterion := CrossEntropyLossCuda (VInt g) |} in
  outcome (main_worker_body ww (VInt g) (VInt n)) = inr tt
  /\ filter is_epoch_event (trace (main_worker_body ww (VInt g) (VInt n)))
     = flat_map (claimed_epoch ww g n su save_dir (VInt E)) (range_upto E)
  /\ (List.length (range_upto E) = Z.to_nat E
      /\ forall i, (i < Z.to_nat E)%nat -> nth i (range_upto E) 0 = Z.of_nat i)
  /\ (rank0 g n = true -> n = 1 \/ g = 0).
Proof.
  intros Ha Hl Hm Hlr He Hsd Hall Hsgd Hcrit su.
  destruct (run_training_ok ww g n (fst (fst l)) (snd (fst l)) (snd l) m
              a lr E save_dir Ha Hlr He Hsd Hall Hsgd Hcrit) as [Htr Hout].
  fold su in Htr.
  split; [|split; [|split]].
  - unfold main_worker_body.
    rewrite outcome_bind, start_worker_outcome.
    rewrite outcome_bind, Hl. rewrite outcome_bind, Hm. exact Hout.
  - rewrite main_worker_filter, start_worker_outcome, Hl, Hm.
    rewrite (start_worker_quiet is_epoch_event) by reflexivity.
    rewrite (build_loaders_quiet is_epoch_event) by reflexivity.
    rewrite (build_model_quiet is_epoch_event)
      by (reflexivity || (intros []; simpl; congruence)).
    exact Htr.
  - split.
    + unfold range_upto. rewrite length_map, length_seq. reflexivity.
    + apply range_upto_nth.
  - apply rank0_only_when.
Qed.

Lemma epochs_run_in_order_witness :
  outcome (main_worker_body Sample.worker (VInt 0) (VInt 1)) = inr tt
  /\ filter is_epoch_event (trace (main_worker_body Sample.worker (VInt 0) (VInt 1)))
     = flat_map (claimed_epoch Sample.worker 0 1 Sample.built (VStr "ckpt") (VInt 2))
         [0; 1].
Proof.
  refine (let H := epochs_run_in_order Sample.worker 0 1 Sample.config 2
                     Sample.loaders (Model (VStr "resnet") 10)
                     (VFloat 0x1p-7%float) (VStr "ckpt")
                     eq_refl eq_refl eq_refl eq_refl eq_refl _ _
                     eq_refl eq_refl in
          conj (proj1 H) (proj1 (proj2 H))).
  - intros _. reflexivity.
  - intros e He. vm_compute in He.
    destruct He as [<- | [<- | []]]; reflexivity.
Defined.

(** ** [wandb] and the [mode] of the configuration *)





Lemma dict_get_set_other (k k' : string) v d :
  k <> k' -> dict_get k (dict_set k' v d) = dict_get k d.
Proof.
  intros Hne. induction d as [|[k0 v0] d IH]; simpl.
  - destruct (String.eqb_spec k k'); [contradiction | reflexivity].
  - destruct (String.eqb_spec k' k0) as [-> | Hk0]; simpl.
    + destruct (String.eqb_spec k k0); [contradiction | reflexivity].
    + destruct (String.eqb_spec k k0); [reflexivity | exact IH].
Qed.


Section SameButMode.
Variables ww1 ww2 : WorkerWorld.
Hypothesis same_args : forall k, k <> "mode" -> arg ww1 k = arg ww2 k.
Hypothesis same_nccl : nccl_available ww1 = nccl_available ww2.
Hypothesis same_classes : num_train_classes ww1 = num_train_classes ww2.
Hypothesis same_train : train_result ww1 = train_result ww2.
Hypothesis same_val : val_result ww1 = val_result ww2.
Hypothesis same_str : worker_str ww1 = worker_str ww2.
Hypothesis same_calls : call_raises ww1 = call_raises ww2.





End SameButMode.




(** ** The seeds *)

(** C10: importing the module seeds the two global generators with [123]
    and sets cuDNN to deterministic without benchmarking, whatever the
    state before (and no configuration is read yet).  So after the import
    two runs are in the same generator states, and the numbers they draw
    from either generator are the same, however many they draw. *)
Theorem seeds_fixed_at_import
  (torch_gen np_gen : Type)
  (torch_manual_seed : Z -> torch_gen) (np_random_seed : Z -> np_gen)
  (torch_draw : torch_gen -> Z * torch_gen) (np_draw : np_gen -> Z * np_gen)
  (before before' : rng_globals torch_gen np_gen) (n : nat) :
  let run1 := module_import torch_gen np_gen torch_manual_seed np_random_seed before in
  let run2 := module_import torch_gen np_gen torch_manual_seed np_random_seed before' in
  SEED = 123
  /\ torch_rng _ _ run1 = torch_manual_seed 123
  /\ np_rng _ _ run1 = np_random_seed 123
  /\ cudnn_deterministic _ _ run1 = true
  /\ cudnn_benchmark _ _ run1 = false
  /\ run1 = run2
  /\ draws torch_draw n (torch_rng _ _ run1) = draws torch_draw n (torch_rng _ _ run2)
  /\ draws np_draw n (np_rng _ _ run1) = draws np_draw n (np_rng _ _ run2).
Proof.
  intros run1 run2.
  assert (Hsame : run1 = run2) by reflexivity.
  repeat split; rewrite ?Hsame; reflexivity.
Qed.

(** ** A configuration that stops [main] early

    [main] reads [args["mode"]["backup"]] before anything else: without
    that key the run ends there with a [KeyError], whatever [mode.Train]
    says. *)
Example main_stops_at_missing_backup :
  let w := {| config_file := inr (VDict [("mode", VDict [("Train", VStr "True")])]);
              cuda_visible_devices := None;
              cuda_is_available := fun _ => true;
              cuda_device_count := fun _ => 2%nat;
              torch_device_raises := fun _ => None;
              builtin_str := fun _ => "";
              worker_world := fun _ => Sample.worker |} in
  parent (main w) = ([], inl (KeyError "backup")) /\ workers (main w) = [].
Proof. split; reflexivity. Qed.

(** * Further properties *)

(** ** [select_device] *)





(** ** The device step of [main] *)

(** X3: a [gpus] field of length at most one has to be a string: then
    [main] calls [torch.device("cuda:" + gpus)] and leaves
    [CUDA_VISIBLE_DEVICES] alone; it goes on when [torch.device] accepts the
    name and ends with the exception of [torch.device] when it does not
    (as for the empty string, whose name is ["cuda:"]).  Any other value
    that is not longer than one (a list or an object with at most one
    entry, a number, [true], [null]) ends [main] with a [TypeError] before
    that call. *)
Theorem device_step_short_gpus (w : World) (args v : pyval) :
  subscript args "gpus" = inr v ->
  (forall k, py_len v = inr k -> k <= 1) ->
  (forall s, v = VStr s ->
     device_step w args
     = ([ETorchDevice ("cuda:" ++ s)],
        match torch_device_raises w ("cuda:" ++ s) with
        | Some x => inl x
        | None => inr (cuda_visible_devices w)
        end))
  /\ ((forall s, v <> VStr s) -> device_step w args = ([], inl TypeError)).
Proof.
  intros Hg Hshort.
  assert (Hlt : forall k, py_len v = inr k -> (1 <? k) = false)
    by (intros k Hk; apply Hshort in Hk; lia).
  unfold device_step. rewrite Hg. run_simpl.
  split.
  - intros s ->. cbn [py_len] in *. run_simpl. rewrite (Hlt _ eq_refl).
    cbn [str_add_left]. run_simpl.
    destruct (torch_device_raises w ("cuda:" ++ s)); reflexivity.
  - intros Hns.
    destruct v as [| | | |s|l|d]; try reflexivity;
      try (exfalso; apply (Hns s); reflexivity);
      cbn [py_len] in *; run_simpl; rewrite (Hlt _ eq_refl); reflexivity.
Qed.

Lemma device_step_short_gpus_witness :
  let w := {| config_file := inr Sample.config;
              cuda_visible_devices := None;
              cuda_is_available := fun _ => true;
              cuda_device_count := fun _ => 2%nat;
              torch_device_raises := fun name =>
                if String.eqb name "cuda:" then Some RuntimeError else None;
              builtin_str := fun _ => "";
              worker_world := fun _ => Sample.worker |} in
  device_step w (VDict [("gpus", VList [VStr "0"])]) = ([], inl TypeError)
  /\ device_step w (VDict [("gpus", VStr "")])
     = ([ETorchDevice "cuda:"], inl RuntimeError)
  /\ device_step w (VDict [("gpus", VStr "1")])
     = ([ETorchDevice "cuda:1"], inr None).
Proof.
  intros w. split; [|split].
  - apply (device_step_short_gpus w
             (VDict [("gpus", VList [VStr "0"])]) (VList [VStr "0"])).
    + reflexivity.
    + intros k [= <-]. vm_compute. discriminate.
    + intros s. discriminate.
  - apply (proj1 (device_step_short_gpus w
                    (VDict [("gpus", VStr "")]) (VStr "") eq_refl
                    ltac:(intros k [= <-]; vm_compute; discriminate))
             "" eq_refl).
  - apply (proj1 (device_step_short_gpus w
                    (VDict [("gpus", VStr "1")]) (VStr "1") eq_refl
                    ltac:(intros k [= <-]; vm_compute; discriminate))
             "1" eq_refl).
Defined.

(** ** [main] as a whole *)

Lemma backup_step_reads (args : pyval) :
  outcome (backup_step args) = inr tt ->
  exists b, mode_field args "backup" = inr b.
Proof.
  unfold backup_step. rewrite outcome_bind. cbn [lift outcome snd].
  destruct (mode_field args "backup") as [x | b]; [discriminate|].
  intros _. exists b. reflexivity.
Qed.

Lemma wandb_step_reads (args : pyval) :
  outcome (wandb_step args) = inr tt ->
  exists t, mode_field args "Train" = inr t
            /\ (t = VStr "True" -> exists p, subscript args "project" = inr p).
Proof.
  unfold wandb_step. rewrite outcome_bind. cbn [lift outcome snd].
  destruct (mode_field args "Train") as [x | t]; [discriminate|].
  intros H. exists t. split; [reflexivity|].
  intros ->. change (py_eq_str (VStr "True") "True") with true in H.
  cbv iota in H. rewrite outcome_bind in H. cbn [lift outcome snd] in H.
  destruct (subscript args "project") as [x | p]; [discriminate|].
  exists p. reflexivity.
Qed.

Lemma device_step_reads (w : World) (args : pyval) (env : option string) :
  outcome (device_step w args) = inr env ->
  exists g k, subscript args "gpus" = inr g /\ py_len g = inr k.
Proof.
  unfold device_step. rewrite outcome_bind. cbn [lift outcome snd].
  destruct (subscript args "gpus") as [x | g]; [discriminate|].
  rewrite outcome_bind. cbn [lift outcome snd].
  destruct (py_len g) as [x | k] eqn:Hk; [discriminate|].
  intros _. exists g, k. split; [reflexivity | exact Hk].
Qed.

(** X5: [main] starts workers only after it has loaded the configuration
    and read [mode.backup], [mode.Train], [project] (when [mode.Train] is
    ["True"]) and a [gpus] value that has a length; a configuration without
    one of them ends the run before [mp.spawn]. *)
Theorem spawn_needs_readable_config (w : World) :
  workers (main w) <> [] ->
  exists args b t g k,
    config_file w = inr args
    /\ mode_field args "backup" = inr b
    /\ mode_field args "Train" = inr t
    /\ (t = VStr "True" -> exists p, subscript args "project" = inr p)
    /\ subscript args "gpus" = inr g
    /\ py_len g = inr k.
Proof.
  rewrite main_workers. unfold main_prelude.
  rewrite outcome_bind. cbn [lift outcome snd].
  destruct (config_file w) as [x | args]; [intros H; contradiction|].
  rewrite outcome_bind.
  destruct (outcome (backup_step args)) as [x | []] eqn:Hb;
    [intros H; contradiction|].
  rewrite outcome_bind.
  destruct (outcome (wandb_step args)) as [x | []] eqn:Hw;
    [intros H; contradiction|].
  rewrite outcome_bind.
  destruct (outcome (device_step w args)) as [x | env] eqn:Hd;
    [intros H; contradiction|].
  intros _.
  destruct (backup_step_reads _ Hb) as [b Hb'].
  destruct (wandb_step_reads _ Hw) as (t & Ht & Hp).
  destruct (device_step_reads _ _ _ Hd) as (g & k & Hg & Hk).
  exists args, b, t, g, k. auto 10.
Qed.

Lemma spawn_needs_readable_config_witness :
  exists args b t g k,
    config_file Sample.world = inr args
    /\ mode_field args "backup" = inr b
    /\ mode_field args "Train" = inr t
    /\ (t = VStr "True" -> exists p, subscript args "project" = inr p)
    /\ subscript args "gpus" = inr g
    /\ py_len g = inr k.
Proof. apply spawn_needs_readable_config. vm_compute. discriminate. Defined.

(** X6: a run of [main] that gets to [mp.spawn] on a machine that shows at
    least one CUDA device ends with the exception [mp.spawn] raises for a
    failed worker; with no device it starts no worker and returns. *)
Theorem main_fails_with_a_device (w : World) args env n :
  outcome (main_prelude w) = inr (args, env, n) ->
  (n = 0%nat -> outcome (parent (main w)) = inr tt /\ workers (main w) = [])
  /\ (n <> 0%nat -> outcome (parent (main w)) = inl ProcessRaisedException).
Proof.
  intros Hpre. unfold main. rewrite Hpre.
  cbn [parent workers outcome snd]. split.
  - intros ->. split; reflexivity.
  - intros Hn. destruct n as [|n]; [contradiction | reflexivity].
Qed.

Lemma main_fails_with_a_device_witness :
  outcome (parent (main Sample.world)) = inl ProcessRaisedException.
Proof.
  apply (main_fails_with_a_device Sample.world Sample.config None 2);
    [reflexivity | discriminate].
Defined.

Lemma filter_all {A : Type} (p : A -> bool) (l : list A) :
  (forall e, In e l -> p e = true) -> filter p l = l.
Proof.
  induction l as [|a l IH]; intros H; [reflexivity|].
  cbn [filter]. rewrite (H a (or_introl eq_refl)).
  f_equal. apply IH. intros e He. apply H. right; exact He.
Qed.

Lemma filter_none {A : Type} (p : A -> bool) (l : list A) :
  (forall e, In e l -> p e = false) -> filter p l = [].
Proof.
  induction l as [|a l IH]; intros H; [reflexivity|].
  cbn [filter]. rewrite (H a (or_introl eq_refl)).
  apply IH. intros e He. apply H. right; exact He.
Qed.

Lemma backup_step_kind (args : pyval) :
  always (fun e => is_backup e = true) (backup_step args).
Proof.
  unfold backup_step.
  repeat first [apply always_emit; reflexivity | always_step].
Qed.

Lemma wandb_step_kind (args : pyval) :
  always (fun e => is_wandb_start e = true) (wandb_step args).
Proof.
  unfold wandb_step.
  repeat first [apply always_emit; reflexivity | always_step].
Qed.

Lemma select_device_kind (w : World) env device :
  always (fun e => is_torch_device e = true) (select_device w env device).
Proof.
  unfold select_device. cbv zeta.
  repeat first [apply always_emit; reflexivity | always_step].
Qed.

Lemma device_step_kind (w : World) (args : pyval) :
  always (fun e => is_torch_device e = true) (device_step w args).
Proof.
  unfold device_step.
  repeat first [apply select_device_kind
               | apply always_emit; reflexivity
               | apply always_call; reflexivity
               | always_step].
Qed.

Lemma main_trace_phases (w : World) :
  exists B W D S,
    trace (parent (main w)) = B ++ W ++ D ++ S
    /\ (forall e, In e B -> is_backup e = true)
    /\ (forall e, In e W -> is_wandb_start e = true)
    /\ (forall e, In e D -> is_torch_device e = true)
    /\ (forall e, In e S -> is_spawn e = true).
Proof.
  rewrite main_parent_trace. unfold main_prelude.
  rewrite trace_bind, outcome_bind. cbn [lift trace outcome fst snd app].
  destruct (config_file w) as [x | args].
  { exists [], [], [], []. repeat split; intros e []. }
  rewrite trace_bind, outcome_bind.
  pose proof (backup_step_kind args) as HB.
  destruct (outcome (backup_step args)) as [x | []].
  { exists (trace (backup_step args)), [], [], [].
    rewrite !app_nil_r. repeat split; try (intros e []). exact HB. }
  rewrite trace_bind, outcome_bind.
  pose proof (wandb_step_kind args) as HW.
  destruct (outcome (wandb_step args)) as [x | []].
  { exists (trace (backup_step args)), (trace (wandb_step args)), [], [].
    rewrite !app_nil_r. repeat split; try (intros e []); assumption. }
  rewrite trace_bind, outcome_bind.
  pose proof (device_step_kind w args) as HD.
  destruct (outcome (device_step w args)) as [x | env].
  { exists (trace (backup_step args)), (trace (wandb_step args)),
      (trace (device_step w args)), [].
    rewrite !app_nil_r. repeat split; try (intros e []); assumption. }
  cbn [ret trace outcome fst snd].
  exists (trace (backup_step args)), (trace (wandb_step args)),
    (trace (device_step w args)),
    [ESpawn (cuda_device_count w env)
       [VInt (Z.of_nat (cuda_device_count w env)); args]].
  rewrite !app_nil_r, <- !app_assoc.
  repeat split; try assumption.
  intros e [<- | []]. reflexivity.
Qed.

(** X7: in every run of [main] the calls come in the order of the source:
    the backup first, then [wandb.init] and [wandb.config.update], then the
    device, and [mp.spawn] last; no call of one kind comes after a call of
    a later kind, and [main] makes no other call. *)
Theorem main_calls_in_order (w : World) :
  let tr := trace (parent (main w)) in
  tr = filter is_backup tr ++ filter is_wandb_start tr
       ++ filter is_torch_device tr ++ filter is_spawn tr.
Proof.
  intros tr. unfold tr.
  destruct (main_trace_phases w) as (B & W & D & S & -> & HB & HW & HD & HS).
  rewrite !filter_app.
  rewrite (filter_all is_backup B HB), (filter_all is_wandb_start W HW),
    (filter_all is_torch_device D HD), (filter_all is_spawn S HS).
  rewrite (filter_none is_backup W), (filter_none is_backup D),
    (filter_none is_backup S), (filter_none is_wandb_start B),
    (filter_none is_wandb_start D), (filter_none is_wandb_start S),
    (filter_none is_torch_device B), (filter_none is_torch_device W),
    (filter_none is_torch_device S), (filter_none is_spawn B),
    (filter_none is_spawn W), (filter_none is_spawn D);
    try (rewrite !app_nil_r; reflexivity);
    intros e He;
    first [apply HB in He | apply HW in He | apply HD in He | apply HS in He];
    destruct e; (reflexivity || discriminate He).
Qed.

(** ** [main_worker]: a configuration that cannot be read *)

Lemma bind_inl {E A B : Type} (m : run E A) (k : A -> run E B) (x : exn) :
  outcome m = inl x -> bind m k = (trace m, inl x).
Proof. unfold bind, outcome, trace. intros ->. reflexivity. Qed.

(** X8: [main_worker] first reads [args["img_size"]], after the logger and
    the process group.  When that read fails (the global [args] is unbound,
    is not an object, or has no such key) the worker ends with that
    exception, and all it has done is start its logger and, with several
    GPUs, join the process group. *)
Theorem main_worker_first_read_fails (ww : WorkerWorld) (g n : Z) (x : exn) :
  outcome (arg ww "img_size") = inl x ->
  main_worker_body ww (VInt g) (VInt n)
  = ((if rank0 g n then [EGetLogger "train"; ESetLevelInfo] else [])
     ++ (if 1 <? n then
           [EInitProcessGroup (if nccl_available ww then "nccl" else "gloo")
              "tcp://127.0.0.1:3333" (VInt n) (VInt g)]
         else []),
     inl x)
  /\ (global_args ww = None -> x = NameError "args")
  /\ (forall d, global_args ww = Some (VDict d) -> x = KeyError "img_size").
Proof.
  intros Hx. split; [|split].
  - assert (Hl : build_loaders ww (VInt n) = ([], inl x)).
    { unfold build_loaders. rewrite (bind_inl _ _ _ Hx), trace_arg. reflexivity. }
    unfold main_worker_body. rewrite start_worker_int, Hl.
    cbn [bind fst snd]. rewrite app_nil_r. reflexivity.
  - intros Hnone. unfold arg in Hx. rewrite Hnone in Hx.
    cbn in Hx. congruence.
  - intros d Hd. unfold arg in Hx. rewrite Hd in Hx.
    cbn in Hx. destruct (dict_get "img_size" d); congruence.
Qed.

Lemma main_worker_first_read_fails_witness :
  main_worker_body (spawned_world Sample.worker) (VInt 1) (VInt 2)
  = ([EInitProcessGroup "nccl" "tcp://127.0.0.1:3333" (VInt 2) (VInt 1)],
     inl (NameError "args")).
Proof.
  apply (main_worker_first_read_fails (spawned_world Sample.worker) 1 2
           (NameError "args")).
  reflexivity.
Defined.

(** ** The workers that are not the first *)

(** Uses what is known of the value a [bind] passes on. *)
Ltac known_outcome :=
  match goal with
  | H : outcome (lift (inr _)) = inr _ |- _ =>
      cbn [outcome lift snd] in H; injection H as <-
  end.

Ltac always_other :=
  repeat first
    [ known_outcome
    | apply always_emit; reflexivity
    | apply always_call; reflexivity
    | always_step ].

Lemma epoch_body_other_worker ww (g n : Z) su st epoch :
  rank0 g n = false ->
  always (fun e => is_first_worker_event e = false)
    (epoch_body ww (VInt g) (VInt n) su st epoch).
Proof.
  intros Hr. unfold epoch_body. rewrite is_rank0_VInt, Hr. always_other.
Qed.

Lemma epoch_loop_other_worker ww (g n : Z) su st epochs :
  rank0 g n = false ->
  always (fun e => is_first_worker_event e = false)
    (epoch_loop ww (VInt g) (VInt n) su st epochs).
Proof.
  intros Hr. revert st. induction epochs as [|epoch rest IH]; intros st; simpl.
  - apply always_ret.
  - apply always_bind; [apply epoch_body_other_worker, Hr | intros; apply IH].
Qed.

(** X9: a worker for which the test
    [(ngpus_per_node == 1) or (ngpus_per_node > 1 and gpu == 0)] fails
    (every worker but the one with index [0] when there are several GPUs)
    never gets a logger, never logs, never calls [wandb.watch],
    [wandb.log] or [wandb.finish] and never saves a checkpoint, however
    far it runs. *)
Theorem other_workers_stay_silent (ww : WorkerWorld) (g n : Z) :
  rank0 g n = false ->
  filter is_first_worker_event (trace (main_worker_body ww (VInt g) (VInt n))) = [].
Proof.
  intros Hr. apply filter_none.
  change (always (fun e => is_first_worker_event e = false)
            (main_worker_body ww (VInt g) (VInt n))).
  unfold main_worker_body.
  apply always_bind; [|intros _ _].
  { rewrite start_worker_int, Hr. intros e He. cbn [trace fst app] in He.
    destruct (1 <? n); [destruct He as [<- | []]; reflexivity | destruct He]. }
  apply always_bind; [|intros l _].
  { unfold build_loaders. always_other. }
  apply always_bind; [|intros m _].
  { unfold build_model. rewrite is_rank0_VInt, Hr. always_other. }
  unfold run_training. rewrite is_rank0_VInt, Hr.
  repeat first
    [ known_outcome
    | apply epoch_loop_other_worker, Hr
    | apply always_emit; reflexivity
    | apply always_call; reflexivity
    | always_step ].
Qed.

Lemma other_workers_stay_silent_witness :
  filter is_first_worker_event
    (trace (main_worker_body Sample.worker (VInt 1) (VInt 2))) = [].
Proof. apply other_workers_stay_silent. reflexivity. Defined.

(** ** The numbering of the epochs *)

Lemma In_range_upto (E x : Z) : In x (range_upto E) -> 0 <= x < E.
Proof.
  unfold range_upto. rewrite in_map_iff. intros [i [<- Hi]].
  apply in_seq in Hi. lia.
Qed.

Ltac numbered :=
  repeat first
    [ known_outcome
    | apply always_emit; cbn [numbered_within map fst dict_get String.eqb];
      first [ exact I
            | split; [lia | reflexivity]
            | lia
            | split; [reflexivity | eexists; split; [eassumption | reflexivity]] ]
    | always_step ].

Lemma epoch_body_numbered ww gpu n su st a E epoch :
  global_args ww = Some a ->
  subscript a "epochs" = inr (VInt E) ->
  0 <= epoch < E ->
  always (numbered_within E) (epoch_body ww gpu n su st epoch).
Proof.
  intros Ha He Hep. unfold epoch_body.
  rewrite !(arg_bound _ _ _ Ha), He. numbered.
Qed.

Lemma epoch_loop_numbered ww gpu n su st a E epochs :
  global_args ww = Some a ->
  subscript a "epochs" = inr (VInt E) ->
  (forall e, In e epochs -> 0 <= e < E) ->
  always (numbered_within E) (epoch_loop ww gpu n su st epochs).
Proof.
  intros Ha He. revert st.
  induction epochs as [|epoch rest IH]; intros st Hall; simpl.
  - apply always_ret.
  - apply always_bind.
    + apply (epoch_body_numbered _ _ _ _ _ a); auto. apply Hall. left; reflexivity.
    + intros st' _. apply IH. intros e Hin. apply Hall. right; exact Hin.
Qed.

(** X10: with [args["epochs"] = E], whatever else happens in the worker,
    every call of [train] and [val] is for an epoch from [0] to [E - 1]
    and is told the total [E]; every checkpoint is numbered from [1] to [E]
    (one more than the epoch of its iteration); and every [wandb.log]
    carries exactly [epoch], [acc], [loss], [val_acc], [val_loss], with an
    epoch from [0] to [E - 1]. *)
Theorem epoch_numbers_in_range (ww : WorkerWorld) (gpu n a : pyval) (E : Z) :
  global_args ww = Some a ->
  subscript a "epochs" = inr (VInt E) ->
  forall e, In e (trace (main_worker_body ww gpu n)) -> numbered_within E e.
Proof.
  intros Ha He.
  change (always (numbered_within E) (main_worker_body ww gpu n)).
  unfold main_worker_body.
  apply always_bind; [|intros _ _].
  { unfold start_worker.
    repeat first [apply always_emit; exact I | always_step]. }
  apply always_bind; [|intros l _].
  { unfold build_loaders.
    repeat first [apply always_emit; exact I | apply always_call; exact I
                 | always_step]. }
  apply always_bind; [|intros m _].
  { unfold build_model.
    repeat first [apply always_emit; exact I | always_step]. }
  unfold run_training. rewrite !(arg_bound _ _ _ Ha), He.
  apply always_bind; [apply always_lift | intros lr _]. cbv zeta.
  apply always_bind; [apply always_call; exact I | intros _ _].
  apply always_bind; [apply always_call; exact I | intros _ _].
  apply always_bind; [apply always_lift | intros v Hv].
  cbn [outcome lift snd] in Hv. injection Hv as <-.
  apply always_bind; [apply always_lift | intros es Hes].
  cbn [outcome lift snd py_range] in Hes. injection Hes as <-.
  apply always_bind; [|intros _ _].
  { apply (epoch_loop_numbered _ _ _ _ _ a E);
      [exact Ha | exact He | apply In_range_upto]. }
  repeat first [apply always_emit; exact I | always_step].
Qed.

Lemma epoch_numbers_in_range_witness :
  numbered_within 2
    (ESaveCheckpoint (Model (VStr "resnet") 10) 2 (VFloat 0x1p-2%float) false "ckpt_10").
Proof.
  apply (epoch_numbers_in_range Sample.worker (VInt 0) (VInt 1) Sample.config 2
           eq_refl eq_refl
           (ESaveCheckpoint (Model (VStr "resnet") 10) 2 (VFloat 0x1p-2%float)
              false "ckpt_10")).
  lazy. do 18 right. left. reflexivity.
Defined.

(** ** The metrics of an epoch *)

Lemma dict_get_set_same (k : string) v d : dict_get k (dict_set k v d) = Some v.
Proof.
  induction d as [|[k0 v0] d IH]; simpl.
  - rewrite String.eqb_refl. reflexivity.
  - destruct (String.eqb_spec k k0) as [-> | Hne]; simpl.
    + rewrite String.eqb_refl. reflexivity.
    + destruct (String.eqb_spec k k0); [contradiction | exact IH].
Qed.

Lemma dict_get_absent (k : string) (d : list (string * pyval)) :
  ~ In k (map fst d) -> dict_get k d = None.
Proof.
  induction d as [|[k0 v0] d IH]; simpl; intros Hnot; [reflexivity|].
  destruct (String.eqb_spec k k0) as [-> | Hne].
  - exfalso. apply Hnot. left; reflexivity.
  - apply IH. intros Hin. apply Hnot. right; exact Hin.
Qed.

Lemma dict_update_get (k : string) (d other : list (string * pyval)) :
  NoDup (map fst other) ->
  dict_get k (dict_update d other)
  = match dict_get k other with
    | Some v => Some v
    | None => dict_get k d
    end.
Proof.
  unfold dict_update. revert d.
  induction other as [|[k0 v0] other IH]; intros d Hnd; simpl.
  - reflexivity.
  - inversion Hnd as [|? ? Hnot Hnd']; subst.
    rewrite (IH _ Hnd').
    destruct (String.eqb_spec k k0) as [-> | Hne].
    + rewrite (dict_get_absent _ _ Hnot). apply dict_get_set_same.
    + destruct (dict_get k other); [reflexivity|].
      apply dict_get_set_other, Hne.
Qed.

(** X11: in [metrics_summary], once [val]'s dictionary is merged into
    [train]'s (a dictionary has each key once), a key that [val] returns
    has [val]'s value, whatever [train] returned under it, and any other
    key has [train]'s. *)
Theorem val_metrics_override_train (ww : WorkerWorld) (epoch : Z) (k : string) :
  NoDup (map fst (val_result ww epoch)) ->
  dict_get k (epoch_metrics ww epoch)
  = match dict_get k (val_result ww epoch) with
    | Some v => Some v
    | None => dict_get k (train_result ww epoch)
    end.
Proof. intros Hnd. unfold epoch_metrics. apply dict_update_get, Hnd. Qed.

Lemma val_metrics_override_train_witness :
  dict_get "val_acc" (epoch_metrics Sample.worker 0) = Some (VFloat 0x1p-2%float).
Proof.
  apply (val_metrics_override_train Sample.worker 0 "val_acc").
  repeat constructor; simpl; intuition discriminate.
Defined.

Lemma not_a_number_lt (v : pyval) (z : Z) :
  is_number v = false -> py_lt_int v z = inl TypeError.
Proof. destruct v; (discriminate || reflexivity). Qed.

(** X12: an iteration reads [val_loss] only after [train] and [val] have
    both run.  When the merged metrics have no [val_loss] the iteration ends
    there with [KeyError], and when [val_loss] is not a number with
    [TypeError]; in both cases nothing is saved or logged for the epoch. *)
Theorem epoch_stops_at_bad_val_loss ww gpu n su st epoch a epochs :
  global_args ww = Some a ->
  subscript a "epochs" = inr epochs ->
  let called :=
    [ETrain (train_loader su) (the_model su) gpu (the_optimizer su)
       (the_criterion su) epoch epochs;
     EVal (val_loader su) (the_model su) (the_criterion su) gpu epoch epochs] in
  (has_metric ww epoch "val_loss" = false ->
   epoch_body ww gpu n su st epoch = (called, inl (KeyError "val_loss")))
  /\ (has_metric ww epoch "val_loss" = true ->
      is_number (metric ww epoch "val_loss") = false ->
      epoch_body ww gpu n su st epoch = (called, inl TypeError)).
Proof.
  intros Ha He called. unfold called.
  unfold epoch_body. rewrite !(arg_bound _ _ _ Ha), He.
  split.
  - unfold has_metric, dict_subscript, subscript. intros Hno.
    destruct (dict_get "val_loss" (epoch_metrics ww epoch)); [discriminate|].
    reflexivity.
  - intros Hhas Hnum.
    rewrite !(has_metric_subscript _ _ _ Hhas). run_simpl.
    rewrite (not_a_number_lt _ _ Hnum). reflexivity.
Qed.

Lemma epoch_stops_at_bad_val_loss_witness :
  let ww := {| global_args := Some Sample.config;
               nccl_available := true;
               num_train_classes := 10;
               train_result := fun _ => [("acc", VInt 1); ("loss", VInt 2)];
               val_result := fun _ => [("val_acc", VInt 1)];
               worker_str := fun _ => "";
               call_raises := fun _ => None |} in
  epoch_body ww (VInt 0) (VInt 1) Sample.built initial_locals 0
  = ([ETrain (train_loader Sample.built) (the_model Sample.built) (VInt 0)
        (the_optimizer Sample.built) (the_criterion Sample.built) 0 (VInt 2);
      EVal (val_loader Sample.built) (the_model Sample.built)
        (the_criterion Sample.built) (VInt 0) 0 (VInt 2)],
     inl (KeyError "val_loss")).
Proof.
  intros ww.
  apply (epoch_stops_at_bad_val_loss ww (VInt 0) (VInt 1) Sample.built
           initial_locals 0 Sample.config (VInt 2)); reflexivity.
Defined.

(** ** The flag of the best checkpoint *)

Lemma not_below_zero_lt (v : pyval) :
  not_below_zero v -> py_lt_int v 0 = inr false.
Proof.
  destruct v as [|b|z|f| | |]; cbn [not_below_zero]; try contradiction.
  - intros _. destruct b; reflexivity.
  - intros Hz. unfold py_lt_int, compare_with_int.
    destruct (Z.compare_spec z 0); (reflexivity || lia).
  - unfold py_lt_int, compare_with_int, float_compare_Z.
    destruct (Prim2SF f) as [s|s| |s m e].
    + intros _. reflexivity.
    + destruct s; [contradiction | intros _; reflexivity].
    + intros _. reflexivity.
    + destruct s; [contradiction | intros _].
      destruct (0 <=? e) eqn:He.
      * assert (Hp : 0 <= 2 ^ e) by (apply Z.pow_nonneg; lia).
        destruct (Z.compare_spec (Z.pos m * 2 ^ e) 0); (reflexivity || nia).
      * reflexivity.
Qed.

Lemma epoch_body_save_flag ww gpu n su st epoch m ep va ib ck :
  In (ESaveCheckpoint m ep va ib ck) (trace (epoch_body ww gpu n su st epoch)) ->
  exists val_loss,
    dict_subscript (epoch_metrics ww epoch) "val_loss" = inr val_loss
    /\ py_lt_int val_loss (best_val_loss st) = inr ib.
Proof.
  unfold epoch_body, arg.
  destruct (global_args ww) as [a|]; run_simpl; [|intros []].
  destruct (subscript a "epochs") as [x|epochs]; run_simpl; [intros []|].
  destruct (dict_subscript (epoch_metrics ww epoch) "val_loss")
    as [x|val_loss]; run_simpl;
    [intros Hin; repeat (destruct Hin as [Hin|Hin]; try discriminate Hin);
     destruct Hin|].
  destruct (py_lt_int val_loss (best_val_loss st)) as [x|bl] eqn:Hbl;
    run_simpl;
    [intros Hin; repeat (destruct Hin as [Hin|Hin]; try discriminate Hin);
     destruct Hin|].
  destruct (dict_subscript (epoch_metrics ww epoch) "val_acc")
    as [x|val_acc]; run_simpl;
    [intros Hin; repeat (destruct Hin as [Hin|Hin]; try discriminate Hin);
     destruct Hin|].
  destruct (py_gt_int val_acc (best_val_acc st)) as [x|ba];
    run_simpl;
    [intros Hin; repeat (destruct Hin as [Hin|Hin]; try discriminate Hin);
     destruct Hin|].
  destruct (is_rank0 gpu n) as [x|[|]]; run_simpl;
    try (intros Hin; repeat (destruct Hin as [Hin|Hin]; try discriminate Hin);
         destruct Hin).
  destruct (subscript a "saveDir") as [x|save_dir]; run_simpl;
    [intros Hin; repeat (destruct Hin as [Hin|Hin]; try discriminate Hin);
     destruct Hin|].
  destruct (dict_subscript (epoch_metrics ww epoch) "acc") as [x|acc];
    [|destruct (dict_subscript (epoch_metrics ww epoch) "loss") as [x|loss]];
    run_simpl; intros Hin;
    repeat (destruct Hin as [Hin|Hin]; try discriminate Hin);
    try solve [destruct Hin];
    inversion Hin; subst;
    exists val_loss; (split; [reflexivity | assumption]).
Qed.

(** X13: since [best_val_loss] stays [0], a checkpoint is never saved as
    the best one in an epoch whose [val_loss] is not below zero (a loss
    that is zero, positive or not a number), whatever the epochs before
    gave. *)
Theorem never_best_unless_negative_loss ww gpu n su done epoch st val_loss
  m ep va ib ck :
  outcome (epoch_loop ww gpu n su initial_locals done) = inr st ->
  dict_subscript (epoch_metrics ww epoch) "val_loss" = inr val_loss ->
  not_below_zero val_loss ->
  In (ESaveCheckpoint m ep va ib ck) (trace (epoch_body ww gpu n su st epoch)) ->
  ib = false.
Proof.
  intros Hdone Hvl Hpos Hin.
  apply epoch_loop_bests in Hdone.
  cbn [initial_locals best_val_loss] in Hdone. destruct Hdone as [Hbest _].
  apply epoch_body_save_flag in Hin. destruct Hin as (vl & Hvl' & Hflag).
  rewrite Hvl in Hvl'. injection Hvl' as <-.
  rewrite Hbest, (not_below_zero_lt _ Hpos) in Hflag.
  congruence.
Qed.

Lemma never_best_unless_negative_loss_witness : false = false.
Proof.
  apply (never_best_unless_negative_loss Sample.worker (VInt 0) (VInt 1)
           Sample.built [0] 1 (Sample.after_epoch 0) (VFloat 0x1p1%float)
           (Model (VStr "resnet") 10) 2 (VFloat 0x1p-2%float) false "ckpt_10").
  - reflexivity.
  - reflexivity.
  - lazy. exact I.
  - lazy. do 2 right. left. reflexivity.
Defined.

(** ** An epoch count that is not an integer, and the end of the run *)

Lemma main_worker_outcome ww (g n : Z) :
  outcome (main_worker_body ww (VInt g) (VInt n))
  = match outcome (build_loaders ww (VInt n)) with
    | inl x => inl x
    | inr l =>
        match outcome (build_model ww (VInt g) (VInt n)) with
        | inl x => inl x
        | inr m =>
            outcome (run_training ww (VInt g) (VInt n)
                       (fst (fst l)) (snd (fst l)) (snd l) m)
        end
    end.
Proof.
  unfold main_worker_body.
  rewrite outcome_bind, start_worker_outcome.
  rewrite outcome_bind.
  destruct (outcome (build_loaders ww (VInt n))); [reflexivity|].
  rewrite outcome_bind. reflexivity.
Qed.

Lemma run_training_bad_epochs ww gpu n ts tl vl m a v x :
  global_args ww = Some a ->
  subscript a "epochs" = inr v ->
  py_range v = inl x ->
  filter is_epoch_event (trace (run_training ww gpu n ts tl vl m)) = []
  /\ exists y, outcome (run_training ww gpu n ts tl vl m) = inl y.
Proof.
  intros Ha He Hr. unfold run_training.
  rewrite !(arg_bound _ _ _ Ha), He.
  rewrite !filter_trace_bind, !outcome_bind.
  cbn [lift trace outcome fst snd app filter].
  destruct (subscript a "learning_rate") as [y | lr].
  - split; [reflexivity | exists y; reflexivity].
  - cbv zeta.
    repeat (progress (rewrite ?filter_trace_bind, ?outcome_bind, ?trace_call,
                        ?outcome_call;
                      cbn [lift emit trace outcome fst snd app filter
                           is_epoch_event])).
    destruct (call_raises ww (ESGD _)) as [y|];
      [split; [reflexivity | exists y; reflexivity]|].
    destruct (call_raises ww (ECriterionCuda gpu)) as [y|];
      [split; [reflexivity | exists y; reflexivity]|].
    rewrite Hr. split; [reflexivity | exists x; reflexivity].
Qed.

(** X14: [range(args["epochs"])] needs an integer.  With any other value
    under [epochs] (a float such as [10.0], a string, [null], ...) the
    worker raises after it has built the optimizer and the criterion and
    before the first epoch: it never calls [train], [val],
    [save_checkpoint] or [wandb.log], and it does not return normally. *)
Theorem epochs_must_be_an_integer (ww : WorkerWorld) (g n : Z) (a v : pyval)
  (x : exn) :
  global_args ww = Some a ->
  subscript a "epochs" = inr v ->
  py_range v = inl x ->
  filter is_epoch_event (trace (main_worker_body ww (VInt g) (VInt n))) = []
  /\ exists y, outcome (main_worker_body ww (VInt g) (VInt n)) = inl y.
Proof.
  intros Ha He Hr. split.
  - rewrite main_worker_filter, start_worker_outcome.
    rewrite (start_worker_quiet is_epoch_event) by reflexivity.
    rewrite (build_loaders_quiet is_epoch_event) by reflexivity.
    rewrite (build_model_quiet is_epoch_event)
      by (reflexivity || (intros []; simpl; congruence)).
    cbn [app].
    destruct (outcome (build_loaders ww (VInt n))) as [y | l]; [reflexivity|].
    destruct (outcome (build_model ww (VInt g) (VInt n))) as [y | m];
      [reflexivity|].
    apply (run_training_bad_epochs _ _ _ _ _ _ _ a v x Ha He Hr).
  - rewrite main_worker_outcome.
    destruct (outcome (build_loaders ww (VInt n))) as [y | l];
      [exists y; reflexivity|].
    destruct (outcome (build_model ww (VInt g) (VInt n))) as [y | m];
      [exists y; reflexivity|].
    apply (run_training_bad_epochs _ _ _ _ _ _ _ a v x Ha He Hr).
Qed.

Lemma epochs_must_be_an_integer_witness :
  let ww := with_args Sample.worker
              (Some (VDict (dict_set "epochs" (VFloat 0x1p1%float)
                              match Sample.config with
                              | VDict d => d
                              | _ => []
                              end))) in
  filter is_epoch_event (trace (main_worker_body ww (VInt 0) (VInt 1))) = [].
Proof.
  intros ww.
  apply (epochs_must_be_an_integer ww 0 1
           (VDict (dict_set "epochs" (VFloat 0x1p1%float)
                     match Sample.config with
                     | VDict d => d
                     | _ => []
                     end))
           (VFloat 0x1p1%float) TypeError); reflexivity.
Defined.

Lemma run_training_finish ww (g n : Z) ts tl vl m :
  filter is_wandb_finish (trace (run_training ww (VInt g) (VInt n) ts tl vl m))
  = match outcome (run_training ww (VInt g) (VInt n) ts tl vl m) with
    | inr _ => if rank0 g n then [EWandbFinish] else []
    | inl _ => []
    end.
Proof.
  unfold run_training. rewrite is_rank0_VInt.
  destruct (global_args ww) as [a|] eqn:Ha.
  2:{ unfold arg. rewrite Ha. reflexivity. }
  rewrite !(arg_bound _ _ _ Ha).
  rewrite !filter_trace_bind, !outcome_bind.
  cbn [lift trace outcome fst snd app filter].
  destruct (subscript a "learning_rate") as [y | lr]; [reflexivity|].
  cbv zeta.
  repeat (progress (rewrite ?filter_trace_bind, ?outcome_bind, ?trace_call,
                      ?outcome_call;
                    cbn [lift emit trace outcome fst snd app filter
                         is_wandb_finish])).
  destruct (call_raises ww (ESGD _)) as [y|]; [reflexivity|].
  destruct (call_raises ww (ECriterionCuda (VInt g))) as [y|]; [reflexivity|].
  destruct (subscript a "epochs") as [y | v]; [reflexivity|].
  repeat (progress (rewrite ?filter_trace_bind, ?outcome_bind;
                    cbn [lift emit trace outcome fst snd app filter
                         is_wandb_finish])).
  destruct (py_range v) as [y | epochs]; [reflexivity|].
  repeat (progress (rewrite ?filter_trace_bind, ?outcome_bind;
                    cbn [lift emit trace outcome fst snd app filter
                         is_wandb_finish])).
  rewrite (epoch_loop_quiet is_wandb_finish)
    by (intros []; simpl; congruence).
  destruct (outcome (epoch_loop _ _ _ _ _ _)) as [y | st]; [reflexivity|].
  repeat (progress (rewrite ?filter_trace_bind, ?outcome_bind;
                    cbn [lift emit trace outcome fst snd app filter
                         is_wandb_finish])).
  destruct (rank0 g n);
    repeat (progress (rewrite ?filter_trace_bind, ?outcome_bind;
                      cbn [lift emit ret trace outcome fst snd app filter
                           is_wandb_finish]));
    reflexivity.
Qed.

(** X15: [wandb.finish] is called exactly by a first worker that gets to
    the end of [main_worker]: there is no handler around the body, so a
    worker that raises anywhere leaves the tracker session unfinished, and
    the call comes once. *)
Theorem wandb_finish_iff_completed (ww : WorkerWorld) (g n : Z) :
  let run := main_worker_body ww (VInt g) (VInt n) in
  (In EWandbFinish (trace run) <-> rank0 g n = true /\ outcome run = inr tt)
  /\ (outcome run = inr tt -> rank0 g n = true ->
      filter is_wandb_finish (trace run) = [EWandbFinish]).
Proof.
  intros run.
  assert (Hf : filter is_wandb_finish (trace run)
               = match outcome run with
                 | inr _ => if rank0 g n then [EWandbFinish] else []
                 | inl _ => []
                 end).
  { unfold run. rewrite main_worker_filter, main_worker_outcome.
    rewrite start_worker_outcome.
    rewrite (start_worker_quiet is_wandb_finish) by reflexivity.
    rewrite (build_loaders_quiet is_wandb_finish) by reflexivity.
    rewrite (build_model_quiet is_wandb_finish)
      by (reflexivity || (intros []; simpl; congruence)).
    cbn [app].
    destruct (outcome (build_loaders ww (VInt n))) as [y | l]; [reflexivity|].
    destruct (outcome (build_model ww (VInt g) (VInt n))) as [y | m];
      [reflexivity|].
    apply run_training_finish. }
  split.
  - split.
    + intros Hin.
      assert (Hin' : In EWandbFinish (filter is_wandb_finish (trace run)))
        by (apply filter_In; split; [exact Hin | reflexivity]).
      rewrite Hf in Hin'.
      destruct (outcome run) as [y | []]; [destruct Hin'|].
      destruct (rank0 g n); [split; reflexivity | destruct Hin'].
    + intros [Hr Ho].
      assert (Hin' : In EWandbFinish (filter is_wandb_finish (trace run)))
        by (rewrite Hf, Ho, Hr; left; reflexivity).
      apply filter_In in Hin'. apply Hin'.
  - intros Ho Hr. rewrite Hf, Ho, Hr. reflexivity.
Qed.

Lemma wandb_finish_iff_completed_witness :
  filter is_wandb_finish (trace (main_worker_body Sample.worker (VInt 0) (VInt 1)))
  = [EWandbFinish].
Proof.
  apply (wandb_finish_iff_completed Sample.worker 0 1); reflexivity.
Defined.

(** ** The model the tracker watches *)

Ltac bare :=
  repeat first
    [ apply always_emit; cbn [shows_bare_model];
      first [exact I | eexists; reflexivity]
    | apply always_call; exact I
    | always_step ].

Lemma epoch_loop_shows_bare ww gpu n su st epochs :
  always (shows_bare_model (num_train_classes ww))
    (epoch_loop ww gpu n su st epochs).
Proof.
  revert st. induction epochs as [|epoch rest IH]; intros st; simpl.
  - apply always_ret.
  - apply always_bind; [unfold epoch_body; bare | intros; apply IH].
Qed.

(** X16: [wandb.watch] and [logger.info(model)] come before the model is
    moved and wrapped, so what they are given is always the model as
    [Model(args["model"], num_classes)] built it, never the
    [DistributedDataParallel] wrapper, whatever the number of GPUs. *)
Theorem tracker_watches_bare_model (ww : WorkerWorld) (gpu n : pyval) :
  forall e, In e (trace (main_worker_body ww gpu n)) ->
            shows_bare_model (num_train_classes ww) e.
Proof.
  change (always (shows_bare_model (num_train_classes ww))
            (main_worker_body ww gpu n)).
  unfold main_worker_body.
  apply always_bind; [unfold start_worker; bare | intros _ _].
  apply always_bind; [unfold build_loaders; bare | intros l _].
  apply always_bind; [unfold build_model; bare | intros m _].
  unfold run_training.
  repeat first
    [ apply epoch_loop_shows_bare
    | apply always_emit; cbn [shows_bare_model];
      first [exact I | eexists; reflexivity]
    | apply always_call; exact I
    | always_step ].
Qed.

Lemma tracker_watches_bare_model_witness :
  shows_bare_model (num_train_classes Sample.worker)
    (EWandbWatch (Model (VStr "resnet") 10)).
Proof.
  apply (tracker_watches_bare_model Sample.worker (VInt 0) (VInt 1)
           (EWandbWatch (Model (VStr "resnet") 10))).
  lazy. do 9 right. left. reflexivity.
Defined.
